(** * The Riak execution module ([modules/riak.py]), embedded in Rocq

    Every operation of the module runs one fixed shell command through the
    ambient [__salt__['cmd.run']] facility, splits the captured text into
    lines and interprets them by prefix or content.  The embedding has three
    layers:

    - [PyStr]: the string builtins the module calls ([startswith], [in],
      [split], [splitlines], [strip]), over [string] read as a sequence of
      characters with code points below 256;
    - [Prog]: a small free monad whose only effect is "run this command and
      give me its output", with Python exceptions as a second leaf;
    - [Riak]: the operations themselves, one definition per [def]. *)

From stdpp Require Import base option list strings gmap.
From Stdlib Require Import Ascii String List Lia ZArith.

Local Open Scope string_scope.
Local Open Scope list_scope.

(** ** Python string builtins *)

Module PyStr.

(** The one-character string holding the line feed written ['\n'] in the
    source. *)
Definition LF : string := String (ascii_of_nat 10) "".

(** [s.startswith(p)] *)
Definition startswith (s p : string) : bool := String.prefix p s.

(** [s.startswith((p1, p2, ...))]: true when some member of the tuple is a
    prefix. *)
Definition startswith_any (s : string) (ps : list string) : bool :=
  existsb (startswith s) ps.

(** [sub in s] *)
Fixpoint contains (sub s : string) : bool :=
  String.prefix sub s ||
  match s with
  | EmptyString => false
  | String _ s' => contains sub s'
  end.

(** [s.split(sep)] for a non-empty separator, scanning left to right for
    non-overlapping occurrences.  [cur] is the piece being accumulated and
    [skip] counts the characters of a matched separator still to be passed
    over.  (Python raises [ValueError] on an empty separator; the module
    only ever passes the literals ["\n"], ["@"], [" : "], ["/"] and [":"].) *)
Fixpoint split_go (sep : string) (skip : nat) (cur s : string) : list string :=
  match s with
  | EmptyString => [cur]
  | String c s' =>
      match skip with
      | S k => split_go sep k cur s'
      | O =>
          if String.prefix sep s
          then cur :: split_go sep (String.length sep - 1) "" s'
          else split_go sep 0 (cur +:+ String c "") s'
      end
  end.

Definition split (s sep : string) : list string := split_go sep 0 "" s.

(** Line boundaries of [str.splitlines()] below code point 256:
    [\n], [\r] (and [\r\n] as one boundary), [\v], [\f], [\x1c], [\x1d],
    [\x1e] and [\x85]. *)
Definition is_linebreak (c : ascii) : bool :=
  let n := nat_of_ascii c in
  (n =? 10)%nat || (n =? 11)%nat || (n =? 12)%nat || (n =? 13)%nat ||
  (n =? 28)%nat || (n =? 29)%nat || (n =? 30)%nat || (n =? 133)%nat.

(** [s.splitlines()]: no line is produced for an empty string, nor after a
    final boundary. *)
Fixpoint splitlines_go (cur s : string) : list string :=
  match s with
  | EmptyString => if String.eqb cur "" then [] else [cur]
  | String c s' =>
      if (nat_of_ascii c =? 13)%nat then
        match s' with
        | String c' s'' =>
            if (nat_of_ascii c' =? 10)%nat
            then cur :: splitlines_go "" s''
            else cur :: splitlines_go "" s'
        | EmptyString => cur :: splitlines_go "" s'
        end
      else if is_linebreak c then cur :: splitlines_go "" s'
      else splitlines_go (cur +:+ String c "") s'
  end.

Definition splitlines (s : string) : list string := splitlines_go "" s.

(** Characters for which [str.isspace()] holds, below code point 256. *)
Definition isspace (c : ascii) : bool :=
  let n := nat_of_ascii c in
  ((9 <=? n)%nat && (n <=? 13)%nat) || ((28 <=? n)%nat && (n <=? 32)%nat) ||
  (n =? 133)%nat || (n =? 160)%nat.

(** [s.split()] with no argument: maximal runs of non-whitespace. *)
Fixpoint split_ws_go (cur s : string) : list string :=
  match s with
  | EmptyString => if String.eqb cur "" then [] else [cur]
  | String c s' =>
      if isspace c
      then (if String.eqb cur "" then split_ws_go "" s'
            else cur :: split_ws_go "" s')
      else split_ws_go (cur +:+ String c "") s'
  end.

Definition split_ws (s : string) : list string := split_ws_go "" s.

Fixpoint lstrip (s : string) : string :=
  match s with
  | EmptyString => ""
  | String c s' => if isspace c then lstrip s' else s
  end.

Fixpoint rstrip (s : string) : string :=
  match s with
  | EmptyString => ""
  | String c s' =>
      let r := rstrip s' in
      if String.eqb r "" && isspace c then "" else String c r
  end.

(** [s.strip()] *)
Definition strip (s : string) : string := rstrip (lstrip s).

(** Number of occurrences of the character [c] in [s]. *)
Fixpoint count_char (c : ascii) (s : string) : nat :=
  match s with
  | EmptyString => 0
  | String a s' => (if Ascii.eqb a c then 1 else 0) + count_char c s'
  end.

End PyStr.

(** ** Commands and exceptions *)

(** The exceptions the module can raise: indexing an empty list and
    unpacking a sequence of the wrong length. *)
Inductive PyExc : Type :=
| IndexError
| ValueError.

(** The values the operations return. *)
Inductive PyVal : Type :=
| PyNone
| PyBool (b : bool)
| PyInt (z : Z)
| PyString (s : string)
| PyList (l : list string).

(** A computation that may call [__salt__['cmd.run']]: it returns, raises,
    or asks for a command to be run and continues with the captured text. *)
Inductive Prog (A : Type) : Type :=
| Ret (a : A)
| Raise (e : PyExc)
| CmdRun (cmd : string) (k : string -> Prog A).

Arguments Ret {A} a.
Arguments Raise {A} e.
Arguments CmdRun {A} cmd k.

Fixpoint bind {A B : Type} (p : Prog A) (f : A -> Prog B) : Prog B :=
  match p with
  | Ret a => f a
  | Raise e => Raise e
  | CmdRun cmd k => CmdRun cmd (fun out => bind (k out) f)
  end.

Notation "'let*' x ':=' p 'in' q" := (bind p (fun x => q))
  (at level 10, x name, p at level 200, q at level 200).

(** [__salt__['cmd.run'](cmd)] *)
Definition cmd_run (cmd : string) : Prog string := CmdRun cmd Ret.

(** [l[i]] on a list. *)
Definition getitem {A : Type} (l : list A) (i : nat) : Prog A :=
  match l !! i with
  | Some x => Ret x
  | None => Raise IndexError
  end.

(** A [for] loop whose body may raise. *)
Fixpoint for_each {A S : Type} (body : S -> A -> Prog S) (xs : list A) (s : S)
  : Prog S :=
  match xs with
  | [] => Ret s
  | x :: xs' => let* s' := body s x in for_each body xs' s'
  end.

(** The command a computation is waiting on, if any. *)
Definition pending {A : Type} (p : Prog A) : option string :=
  match p with
  | CmdRun cmd _ => Some cmd
  | _ => None
  end.

(** Hand the captured output of the pending command to the computation. *)
Definition resume {A : Type} (p : Prog A) (out : string) : Prog A :=
  match p with
  | CmdRun _ k => k out
  | _ => p
  end.

(** How a run against a stubbed executor ends. *)
Inductive Outcome (A : Type) : Type :=
| Returned (a : A)
| Raised (e : PyExc).

Arguments Returned {A} a.
Arguments Raised {A} e.

(** Run a computation against a stub [sh] mapping each command to its
    captured output; the second component lists the commands run, in
    order. *)
Fixpoint exec {A : Type} (sh : string -> string) (p : Prog A)
  : Outcome A * list string :=
  match p with
  | Ret a => (Returned a, [])
  | Raise e => (Raised e, [])
  | CmdRun cmd k => let '(r, cmds) := exec sh (k (sh cmd)) in (r, cmd :: cmds)
  end.

(** A computation that may call [__salt__['cmd.retcode']]: it returns, or
    asks for a command to be run and continues with its exit code. *)
Inductive RcProg (A : Type) : Type :=
| RcRet (a : A)
| CmdRetcode (cmd : string) (k : Z -> RcProg A).

Arguments RcRet {A} a.
Arguments CmdRetcode {A} cmd k.

Fixpoint rc_bind {A B : Type} (p : RcProg A) (f : A -> RcProg B) : RcProg B :=
  match p with
  | RcRet a => f a
  | CmdRetcode cmd k => CmdRetcode cmd (fun rc => rc_bind (k rc) f)
  end.

(** [__salt__['cmd.retcode'](cmd)] *)
Definition cmd_retcode (cmd : string) : RcProg Z := CmdRetcode cmd RcRet.

(** Run against a stub [sh] mapping each command to its exit code; the
    second component lists the commands run, in order. *)
Fixpoint rc_exec {A : Type} (sh : string -> Z) (p : RcProg A)
  : A * list string :=
  match p with
  | RcRet a => (a, [])
  | CmdRetcode cmd k => let '(r, cmds) := rc_exec sh (k (sh cmd)) in (r, cmd :: cmds)
  end.

(** [bool(n)] on an integer. *)
Definition bool_of_int (n : Z) : bool := negb (n =? 0)%Z.

(** [l[a:b]] on a list, for non-negative bounds. *)
Definition list_slice {A : Type} (l : list A) (a b : nat) : list A :=
  drop a (take b l).

(** [s[:n]] on a string. *)
Definition str_upto (s : string) (n : nat) : string := String.substring 0 n s.

(** ** The operations of [modules/riak.py] *)

Module Riak.

Import PyStr.

(** The block every normalising operation repeats after [cmd.run]
    (lines 28-31 for [version], and verbatim in the six cluster
    operations):
<<
    out = <captured text>.split('\n')
    msgs = [line for line in out if not line.startswith("!!!!")]
    if len(msgs) > 0 and msgs[0].startswith("Attempting"):
        del(msgs[0])
>>
    The result is the final value of [msgs]. *)
Definition normalize (raw : string) : list string :=
  let out := split raw LF in
  let msgs := List.filter (fun line => negb (startswith line "!!!!")) out in
  if (0 <? length msgs)%nat &&
     match msgs !! 0%nat with
     | Some m => startswith m "Attempting"
     | None => false
     end
  then delete 0%nat msgs
  else msgs.

(** The validation [len(node.split("@")) != 2]. *)
Definition bad_node (node : string) : bool :=
  negb (length (split node "@") =? 2)%nat.

Definition version : Prog PyVal :=
  let cmd := "riak version" in
  let* raw := cmd_run cmd in
  let msgs := normalize raw in
  let* m := getitem msgs 0 in
  Ret (PyString m).

(** The tail shared by [cluster_join], [cluster_leave] and
    [cluster_replace]:
<<
    if msgs[0].startswith("Success"):
        return True
    else:
        return msgs[0]
>> *)
Definition success_or_line (msgs : list string) : Prog PyVal :=
  let* m := getitem msgs 0 in
  if startswith m "Success"
  then Ret (PyBool true)
  else
    let* m' := getitem msgs 0 in
    Ret (PyString m').

Definition cluster_join (node : string) : Prog PyVal :=
  if bad_node node then Ret (PyBool false)
  else
    let cmd := "riak-admin cluster join " +:+ node in
    let* raw := cmd_run cmd in
    success_or_line (normalize raw).

Definition cluster_leave (node : option string) (force : bool) : Prog PyVal :=
  if match node with
     | Some n => bad_node n
     | None => false
     end
  then Ret (PyBool false)
  else
    let cmd :=
      if negb force
      then "riak-admin cluster leave"
      else "riak-admin cluster force-remove" in
    let cmd :=
      match node with
      | Some n => cmd +:+ " " +:+ n
      | None => cmd
      end in
    let* raw := cmd_run cmd in
    success_or_line (normalize raw).

Definition cluster_replace (node1 node2 : string) (force : bool) : Prog PyVal :=
  if bad_node node1 && bad_node node2 then Ret (PyBool false)
  else
    let cmd := "riak-admin cluster replace " +:+ node1 +:+ " " +:+ node2 in
    let* raw := cmd_run cmd in
    success_or_line (normalize raw).

Definition cluster_plan : Prog PyVal :=
  let cmd := "riak-admin cluster plan" in
  let* raw := cmd_run cmd in
  let msgs := normalize raw in
  let* m := getitem msgs 0 in
  if String.eqb m "There are no staged changes"
  then Ret PyNone
  else Ret (PyList msgs).

Definition cluster_clear : Prog PyVal :=
  let cmd := "riak-admin cluster clear" in
  let* raw := cmd_run cmd in
  let msgs := normalize raw in
  let* m := getitem msgs 0 in
  if String.eqb m "Cleared staged cluster changes"
  then Ret (PyBool true)
  else
    let* m' := getitem msgs 0 in
    Ret (PyString m').

Definition cluster_commit : Prog PyVal :=
  let cmd := "riak-admin cluster commit" in
  let* raw := cmd_run cmd in
  let msgs := normalize raw in
  let* m := getitem msgs 0 in
  if startswith m "You must verify the plan"
  then cluster_plan
  else
    let* m' := getitem msgs 0 in
    Ret (PyString m').

(** The dictionary [member_status] builds: [ret['membership']] maps a node
    to its [{'Status', 'Ring', 'Pending'}] dictionary, [ret['summary']]
    starts with five integer zeros and is overwritten with strings. *)
Record MemberStatus : Type := {
  membership : gmap string (gmap string string);
  summary : gmap string PyVal
}.

Definition initial_ret : MemberStatus :=
  {| membership := ∅;
     summary :=
       {[ "Valid" := PyInt 0; "Leaving" := PyInt 0; "Exiting" := PyInt 0;
          "Joining" := PyInt 0; "Down" := PyInt 0 ]} |}.

(** [line.startswith(('=', '-', 'Status'))] *)
Definition skipped (line : string) : bool :=
  startswith_any line ["="; "-"; "Status"].

(** Body of the inner loop,
<<
    key, val = item.split(':')
    ret['summary'][key.strip()] = val.strip()
>>
    where the unpacking raises [ValueError] unless the split has exactly two
    parts. *)
Definition summary_item (ret : MemberStatus) (item : string)
  : Prog MemberStatus :=
  match split item ":" with
  | [key; val] =>
      Ret {| membership := membership ret;
             summary := <[strip key := PyString (strip val)]> (summary ret) |}
  | _ => Raise ValueError
  end.

(** The [if '/' in line:] block of the outer loop. *)
Definition summary_step (ret : MemberStatus) (line : string)
  : Prog MemberStatus :=
  if contains "/" line
  then
    let comps := split line "/" in
    for_each summary_item comps ret
  else Ret ret.

(** The dictionary stored for a node row. *)
Definition node_row (status ring pend : string) : gmap string string :=
  {[ "Status" := status; "Ring" := ring; "Pending" := pend ]}.

(** The [vals = line.split()] / [if len(vals) == 4:] block of the outer
    loop. *)
Definition node_step (ret : MemberStatus) (line : string)
  : Prog MemberStatus :=
  let vals := split_ws line in
  if (length vals =? 4)%nat
  then
    let* v3 := getitem vals 3 in
    let* v0 := getitem vals 0 in
    let* v1 := getitem vals 1 in
    let* v2 := getitem vals 2 in
    Ret {| membership := <[v3 := node_row v0 v1 v2]> (membership ret);
           summary := summary ret |}
  else Ret ret.

(** Body of the outer loop of [member_status]: a skipped line leaves [ret]
    alone ([continue]); any other line goes through the summary block and
    then, whatever that did, through the node-row block. *)
Definition member_line (ret : MemberStatus) (line : string)
  : Prog MemberStatus :=
  if skipped line then Ret ret
  else
    let* ret := summary_step ret line in
    node_step ret line.

Definition member_status : Prog MemberStatus :=
  let ret := initial_ret in
  let cmd := "riak-admin member-status" in
  let* raw := cmd_run cmd in
  let out := splitlines raw in
  for_each member_line out ret.

(** Body of the loop of [status]. *)
Definition status_line (ret : list (gmap string string)) (line : string)
  : Prog (list (gmap string string)) :=
  let parts := split line " : " in
  if (length parts =? 2)%nat
  then
    let* p0 := getitem parts 0 in
    let* p1 := getitem parts 1 in
    Ret (ret ++ [{[p0 := p1]}])
  else Ret ret.

Definition status : Prog (list (gmap string string)) :=
  let cmd := "riak-admin status" in
  let* raw := cmd_run cmd in
  let out := split raw LF in
  let ret := [] in
  for_each status_line out ret.

(** [ping], [is_up], [start], [stop] and [restart] look at the exit code
    only: [not bool(__salt__['cmd.retcode'](cmd))]. *)
Definition is_up : RcProg bool :=
  rc_bind (cmd_retcode "riak ping") (fun rc => RcRet (negb (bool_of_int rc))).

Definition ping : RcProg string :=
  rc_bind is_up (fun up => if Bool.eqb up true then RcRet "pong" else RcRet "").

Definition start : RcProg bool :=
  rc_bind (cmd_retcode "riak start") (fun rc => RcRet (negb (bool_of_int rc))).

Definition stop : RcProg bool :=
  rc_bind (cmd_retcode "riak stop") (fun rc => RcRet (negb (bool_of_int rc))).

Definition restart : RcProg bool :=
  rc_bind (cmd_retcode "riak restart")
          (fun rc => RcRet (negb (bool_of_int rc))).

Definition ringready : Prog PyVal :=
  let cmd := "riak-admin ringready" in
  let* raw := cmd_run cmd in
  let out := split raw LF in
  if (0 <? length out)%nat &&
     match out !! 0%nat with
     | Some l => startswith l "TRUE"
     | None => false
     end
  then Ret (PyBool true)
  else Ret (PyBool false).

(** Body of the loop of [ring_status]:
<<
    if len(line) > 0 and line[:1] != "=" and line[:1] != " ":
        ret.append(line)
>> *)
Definition ring_status_line (ret : list string) (line : string)
  : Prog (list string) :=
  if (0 <? String.length line)%nat
     && negb (String.eqb (str_upto line 1) "=")
     && negb (String.eqb (str_upto line 1) " ")
  then Ret (ret ++ [line])
  else Ret ret.

Definition ring_status : Prog PyVal :=
  let cmd := "riak-admin ring-status" in
  let* raw := cmd_run cmd in
  let out := split raw LF in
  let out := list_slice out 1 (length out) in
  let ret := [] in
  let* ret := for_each ring_status_line out ret in
  Ret (PyList ret).

Definition transfers : Prog PyVal :=
  let cmd := "riak-admin transfers" in
  let* raw := cmd_run cmd in
  let out := split raw LF in
  let* o := getitem out 0 in
  if String.eqb o "No transfers active"
  then
    let* o' := getitem out 0 in
    Ret (PyString o')
  else Ret (PyList out).

Definition diag : Prog PyVal :=
  let cmd := "riak-admin diag" in
  let* raw := cmd_run cmd in
  let out := split raw LF in
  if (length out =? 1)%nat &&
     match out !! 0%nat with
     | Some l => (String.length l =? 0)%nat
     | None => false
     end
  then Ret (PyString "Nothing to report")
  else Ret (PyList out).

End Riak.

Import PyStr Riak.

(** ** Definitions used to state the properties *)

(** The example output of [riak-admin member-status]. *)
Definition member_status_example : string :=
  "================================= Membership ==================" +:+ LF +:+
  "Status     Ring    Pending    Node" +:+ LF +:+
  "-------------------------------------------------------------" +:+ LF +:+
  "valid      25.0%     --      'riak@127.0.0.1'" +:+ LF +:+
  "-------------------------------------------------------------" +:+ LF +:+
  "Valid:1 / Leaving:0 / Exiting:0 / Joining:0 / Down:0".

(** What one [key:val] segment does to the summary dictionary. *)
Definition put_summary (m : gmap string PyVal) (kv : string * string)
  : gmap string PyVal :=
  <[strip kv.1 := PyString (strip kv.2)]> m.

(** The elements one raw line contributes, in the specification's words: a
    line that splits on [" : "] into exactly two parts gives the single-key
    mapping from the first part to the second, any other line gives
    nothing. *)
Definition status_row_spec (line : string) : list (gmap string string) :=
  match split line " : " with
  | [key; value] => [{[ key := value ]}]
  | _ => []
  end.

(** The segments [member_status] reads key/value pairs from on a line: its
    ["/"]-separated parts when the line holds a ["/"], none otherwise. *)
Definition slash_segments (line : string) : list string :=
  if contains "/" line then split line "/" else [].

(** What a line does to the membership: a line that whitespace-splits into
    exactly four tokens maps the fourth to the [Status]/[Ring]/[Pending]
    dictionary of the first three; any other line changes nothing. *)
Definition store_row (m : gmap string (gmap string string)) (line : string)
  : gmap string (gmap string string) :=
  match split_ws line with
  | [t0; t1; t2; t3] =>
      <[t3 := {[ "Status" := t0; "Ring" := t1; "Pending" := t2 ]}]> m
  | _ => m
  end.

(** An output made of crash-banner lines only. *)
Definition banner_only_example : string :=
  "!!!! riak crashed" +:+ LF +:+ "!!!!".

(** [sep.join(parts)] *)
Fixpoint join (sep : string) (parts : list string) : string :=
  match parts with
  | [] => ""
  | x :: rest =>
      match rest with
      | [] => x
      | _ :: _ => x +:+ sep +:+ join sep rest
      end
  end.

(** The text of [s] before the first occurrence of the character [c]. *)
Fixpoint before_char (c : ascii) (s : string) : string :=
  match s with
  | EmptyString => ""
  | String a s' => if Ascii.eqb a c then "" else String a (before_char c s')
  end.

(** The lines [ring_status] keeps: non-empty, first character neither ["="]
    nor a blank. *)
Definition ring_status_keeps (line : string) : bool :=
  negb (String.eqb line "") && negb (startswith line "=")
  && negb (startswith line " ").

(** The raw lines left once the crash-banner lines are filtered out. *)
Definition non_banner_lines (raw : string) : list string :=
  List.filter (fun line => negb (startswith line "!!!!")) (split raw LF).

(** An answer that is a boolean, or a raw output line starting with neither
    ["Success"] nor ["!!!!"]. *)
Definition bool_or_raw_line (raw : string) (v : PyVal) : Prop :=
  (exists b, v = PyBool b) \/
  (exists line,
     v = PyString line /\ In line (split raw LF) /\
     startswith line "Success" = false /\ startswith line "!!!!" = false).

(** Unfold one [cmd.run] call and the continuation behind it. *)
Ltac run_cmd := unfold cmd_run; cbn [resume pending bind exec].

(** ** Facts about the string builtins *)

Section StringFacts.

Lemma append_cons (c : ascii) (s t : string) :
  String c s +:+ t = String c (s +:+ t).
Proof. reflexivity. Qed.

Lemma append_empty_r (s : string) : s +:+ "" = s.
Proof.
  induction s as [|c s IH]; [reflexivity | now rewrite append_cons, IH].
Qed.

Lemma append_snoc (cur : string) (c : ascii) (s : string) :
  (cur +:+ String c "") +:+ s = cur +:+ String c s.
Proof.
  induction cur as [|a cur IH]; [reflexivity | now rewrite !append_cons, IH].
Qed.

(** A string without the separator splits into itself alone. *)
Lemma split_go_absent (sep s : string) :
  forall cur, contains sep s = false -> split_go sep 0 cur s = [cur +:+ s].
Proof.
  induction s as [|c s IH]; intros cur H.
  - simpl. now rewrite append_empty_r.
  - cbn [contains] in H. apply orb_false_elim in H as [Hp Hc].
    cbn [split_go]. rewrite Hp, (IH _ Hc). now rewrite append_snoc.
Qed.

Lemma split_absent (sep s : string) :
  contains sep s = false -> split s sep = [s].
Proof. intros H. unfold split. now rewrite split_go_absent. Qed.

Lemma split_go_nonempty (sep : string) (s : string) :
  forall skip cur, (1 <= length (split_go sep skip cur s))%nat.
Proof.
  induction s as [|c s IH]; intros skip cur; cbn [split_go]; [simpl; lia|].
  destruct skip; [|apply IH].
  destruct (String.prefix sep (String c s)); [simpl; lia | apply IH].
Qed.

(** A string holding a (non-empty) separator splits into two parts or
    more. *)
Lemma split_go_present (sep s : string) :
  sep <> "" ->
  forall cur, contains sep s = true ->
  (2 <= length (split_go sep 0 cur s))%nat.
Proof.
  intros Hsep. induction s as [|c s IH]; intros cur H.
  - destruct sep; [congruence | discriminate].
  - cbn [contains] in H. cbn [split_go].
    destruct (String.prefix sep (String c s)) eqn:Hp.
    + cbn [length]. pose proof (split_go_nonempty sep s (String.length sep - 1) ""). lia.
    + simpl in H. now apply IH.
Qed.

(** Splitting on one character gives one part more than the character
    occurs. *)
Lemma prefix_empty (s : string) : String.prefix "" s = true.
Proof. now destruct s. Qed.

Lemma split_go_char_length (c : ascii) (s : string) :
  forall cur, length (split_go (String c "") 0 cur s) = S (count_char c s).
Proof.
  induction s as [|a s IH]; intros cur; [reflexivity|].
  cbn [split_go count_char String.prefix].
  destruct (ascii_dec c a) as [->|Hne].
  - rewrite Ascii.eqb_refl, prefix_empty.
    change (String.length (String a "") - 1)%nat with 0%nat.
    cbn [length]. now rewrite IH.
  - assert (Ascii.eqb a c = false) as -> by (apply Ascii.eqb_neq; congruence).
    now rewrite IH.
Qed.

Lemma split_char_length (c : ascii) (s : string) :
  length (split s (String c "")) = S (count_char c s).
Proof. apply split_go_char_length. Qed.

End StringFacts.

(** ** Facts about the shared blocks *)

Section Normalizer.

Lemma bad_node_true (node : string) :
  bad_node node = true <-> length (split node "@") <> 2%nat.
Proof.
  unfold bad_node. rewrite negb_true_iff, Nat.eqb_neq. reflexivity.
Qed.

Lemma bad_node_false (node : string) :
  bad_node node = false <-> length (split node "@") = 2%nat.
Proof.
  unfold bad_node. rewrite negb_false_iff, Nat.eqb_eq. reflexivity.
Qed.

Lemma filter_keep_all {A : Type} (f : A -> bool) (l : list A) :
  (forall x, In x l -> f x = true) -> List.filter f l = l.
Proof.
  induction l as [|x l IH]; intros H; [reflexivity|].
  cbn [List.filter]. rewrite (H x) by now left.
  f_equal. apply IH. intros y Hy. apply H. now right.
Qed.

Lemma filter_drop_all {A : Type} (f : A -> bool) (l : list A) :
  (forall x, In x l -> f x = false) -> List.filter f l = [].
Proof.
  induction l as [|x l IH]; intros H; [reflexivity|].
  cbn [List.filter]. rewrite (H x) by now left.
  apply IH. intros y Hy. apply H. now right.
Qed.

(** Output made of crash-banner lines only normalises to nothing. *)
Lemma normalize_all_banner (raw : string) :
  (forall line, In line (split raw LF) -> startswith line "!!!!" = true) ->
  normalize raw = [].
Proof.
  intros H. unfold normalize.
  rewrite filter_drop_all; [reflexivity|].
  intros line Hin. now rewrite (H line Hin).
Qed.

Lemma getitem_head {A : Type} (x : A) (l : list A) : getitem (x :: l) 0 = Ret x.
Proof. reflexivity. Qed.

Lemma success_or_line_head (first : string) (rest : list string) :
  success_or_line (first :: rest) =
  if startswith first "Success" then Ret (PyBool true)
  else Ret (PyString first).
Proof.
  unfold success_or_line. rewrite getitem_head. cbn [bind].
  now destruct (startswith first "Success").
Qed.

End Normalizer.

(** ** The cluster operations *)

Section ClusterOperations.

(** C1: [cluster_replace] answers [False] without running anything exactly
    when both nodes fail the ["@"] check; when exactly one of them fails it,
    the [riak-admin cluster replace <node1> <node2>] command is built and
    run. *)
Theorem cluster_replace_rejects_only_when_both_bad
  (node1 node2 : string) (force : bool) :
  (cluster_replace node1 node2 force = Ret (PyBool false) <->
     length (split node1 "@") <> 2%nat /\ length (split node2 "@") <> 2%nat) /\
  (length (split node1 "@") <> 2%nat -> length (split node2 "@") <> 2%nat ->
     forall sh, exec sh (cluster_replace node1 node2 force)
                = (Returned (PyBool false), [])) /\
  ((length (split node1 "@") <> 2%nat /\ length (split node2 "@") = 2%nat) \/
   (length (split node1 "@") = 2%nat /\ length (split node2 "@") <> 2%nat) ->
     pending (cluster_replace node1 node2 force)
     = Some ("riak-admin cluster replace " +:+ node1 +:+ " " +:+ node2) /\
     forall sh, exists r cmds,
       exec sh (cluster_replace node1 node2 force)
       = (r, ("riak-admin cluster replace " +:+ node1 +:+ " " +:+ node2)
             :: cmds)).
Proof.
  rewrite <- !bad_node_true, <- !bad_node_false.
  unfold cluster_replace.
  destruct (bad_node node1), (bad_node node2); cbn [andb]; run_cmd;
    (split; [split; [intros; try discriminate; auto | intros [? ?]; congruence]
            | split; [ intros; congruence | ] ]).
  all: intros [[? ?]|[? ?]]; try discriminate.
  all: split; [reflexivity|]; intros sh.
  all: destruct (exec sh _) as [r cmds]; eauto.
Qed.

Lemma cluster_replace_rejects_only_when_both_bad_witness :
  pending (cluster_replace "riak" "riak@10.0.0.2" false)
  = Some "riak-admin cluster replace riak riak@10.0.0.2" /\
  pending (cluster_replace "riak@10.0.0.1" "a@b@c" true)
  = Some "riak-admin cluster replace riak@10.0.0.1 a@b@c" /\
  exec (fun _ => "Success") (cluster_replace "riak" "a@b@c" false)
  = (Returned (PyBool false), []).
Proof.
  pose proof (cluster_replace_rejects_only_when_both_bad
                "riak" "riak@10.0.0.2" false) as (_ & _ & H1).
  pose proof (cluster_replace_rejects_only_when_both_bad
                "riak@10.0.0.1" "a@b@c" true) as (_ & _ & H2).
  pose proof (cluster_replace_rejects_only_when_both_bad
                "riak" "a@b@c" false) as (_ & H3 & _).
  split; [|split].
  - apply H1. left. split; vm_compute; [lia | reflexivity].
  - apply H2. right. split; vm_compute; [reflexivity | lia].
  - apply H3; vm_compute; lia.
Defined.

(** C3: a node that does not split on ["@"] into exactly two parts makes
    [cluster_join] answer [False] at once: the computation is a bare return,
    so no command is built, and against any executor no command is run. *)
Theorem cluster_join_rejects_bad_node (node : string) :
  length (split node "@") <> 2%nat ->
  cluster_join node = Ret (PyBool false) /\
  pending (cluster_join node) = None /\
  forall sh, exec sh (cluster_join node) = (Returned (PyBool false), []).
Proof.
  intros H. apply bad_node_true in H.
  unfold cluster_join. rewrite H. repeat split.
Qed.

Lemma cluster_join_rejects_bad_node_witness :
  length (split "badnode" "@") <> 2%nat /\
  cluster_join "badnode" = Ret (PyBool false) /\
  pending (cluster_join "badnode") = None /\
  forall sh, exec sh (cluster_join "badnode") = (Returned (PyBool false), []).
Proof.
  assert (H : length (split "badnode" "@") <> 2%nat) by (vm_compute; lia).
  split; [exact H | exact (cluster_join_rejects_bad_node "badnode" H)].
Defined.

(** C4: for a node passing the ["@"] check, [cluster_join] runs
    [riak-admin cluster join <node>] and, on the first normalised line,
    answers [True] exactly when it starts with ["Success"] and otherwise
    answers that line itself; on the output
    ["Attempting to join...\nSuccess: joined"] it answers [True]. *)
Theorem cluster_join_success_or_line :
  (forall node : string,
     length (split node "@") = 2%nat ->
     pending (cluster_join node) = Some ("riak-admin cluster join " +:+ node) /\
     forall (raw first : string) (rest : list string),
       normalize raw = first :: rest ->
       (resume (cluster_join node) raw = Ret (PyBool true) <->
          startswith first "Success" = true) /\
       (startswith first "Success" = false ->
          resume (cluster_join node) raw = Ret (PyString first))) /\
  normalize ("Attempting to join..." +:+ LF +:+ "Success: joined")
  = ["Success: joined"] /\
  exec (fun _ => "Attempting to join..." +:+ LF +:+ "Success: joined")
       (cluster_join "a@b")
  = (Returned (PyBool true), ["riak-admin cluster join a@b"]).
Proof.
  split; [|split; vm_compute; reflexivity].
  intros node H. apply bad_node_false in H.
  unfold cluster_join. rewrite H. run_cmd.
  split; [reflexivity|].
  intros raw first rest Hn. rewrite Hn, success_or_line_head.
  destruct (startswith first "Success"); split; try easy.
Qed.

Lemma cluster_join_success_or_line_witness :
  resume (cluster_join "riak@10.0.0.1") "Node is already a member"
  = Ret (PyString "Node is already a member") /\
  resume (cluster_join "riak@10.0.0.1") "Success: staged join request"
  = Ret (PyBool true).
Proof.
  destruct cluster_join_success_or_line as [H _].
  assert (Hn : length (split "riak@10.0.0.1" "@") = 2%nat) by reflexivity.
  destruct (H "riak@10.0.0.1" Hn) as [_ Hk].
  split.
  - apply (Hk "Node is already a member" "Node is already a member" []);
      reflexivity.
  - apply (Hk "Success: staged join request" "Success: staged join request" []);
      reflexivity.
Defined.

(** C5: when no raw line starts with ["!!!!"] and the first raw line does
    not start with ["Attempting"], normalisation changes nothing: the
    normalised lines are the newline split of the raw output. *)
Theorem normalize_noop (raw : string) :
  (forall line, In line (split raw LF) -> startswith line "!!!!" = false) ->
  (forall first rest,
     split raw LF = first :: rest -> startswith first "Attempting" = false) ->
  normalize raw = split raw LF.
Proof.
  intros Hbanner Hfirst. unfold normalize.
  rewrite filter_keep_all
    by (intros line Hin; now rewrite (Hbanner line Hin)).
  destruct (split raw LF) as [|first rest] eqn:Hs; [reflexivity|].
  cbn [lookup list_lookup]. rewrite (Hfirst first rest eq_refl).
  now rewrite andb_false_r.
Qed.

Lemma normalize_noop_witness :
  normalize ("Success: staged join" +:+ LF +:+ "!! almost a banner" +:+ LF
             +:+ "Attempting later" +:+ LF)
  = ["Success: staged join"; "!! almost a banner"; "Attempting later"; ""].
Proof.
  rewrite normalize_noop.
  - reflexivity.
  - intros line Hin. vm_compute in Hin.
    repeat (destruct Hin as [<-|Hin]; [reflexivity|]). destruct Hin.
  - intros first rest Hs. vm_compute in Hs.
    injection Hs as <- _. reflexivity.
Defined.

(** C6: on an output whose every line starts with ["!!!!"] the normalised
    lines are empty, and [version], [cluster_join], [cluster_leave],
    [cluster_replace] (once their validation has passed), [cluster_plan],
    [cluster_clear] and [cluster_commit] all index past the end of the list:
    they raise [IndexError] and return no result. *)
Theorem first_line_access_crashes_on_banner_only (raw : string) :
  (forall line, In line (split raw LF) -> startswith line "!!!!" = true) ->
  normalize raw = [] /\
  resume version raw = Raise IndexError /\
  (forall node, length (split node "@") = 2%nat ->
     resume (cluster_join node) raw = Raise IndexError) /\
  (forall force, resume (cluster_leave None force) raw = Raise IndexError) /\
  (forall node force, length (split node "@") = 2%nat ->
     resume (cluster_leave (Some node) force) raw = Raise IndexError) /\
  (forall node1 node2 force,
     length (split node1 "@") = 2%nat \/ length (split node2 "@") = 2%nat ->
     resume (cluster_replace node1 node2 force) raw = Raise IndexError) /\
  resume cluster_plan raw = Raise IndexError /\
  resume cluster_clear raw = Raise IndexError /\
  resume cluster_commit raw = Raise IndexError.
Proof.
  intros H. apply normalize_all_banner in H.
  split; [exact H|].
  split; [unfold version; run_cmd; now rewrite H|].
  split.
  { intros node Hn. apply bad_node_false in Hn.
    unfold cluster_join. rewrite Hn. run_cmd. now rewrite H. }
  split.
  { intros force. unfold cluster_leave. run_cmd. now rewrite H. }
  split.
  { intros node force Hn. apply bad_node_false in Hn.
    unfold cluster_leave. rewrite Hn. run_cmd. now rewrite H. }
  split.
  { intros node1 node2 force Hn. unfold cluster_replace.
    assert (bad_node node1 && bad_node node2 = false) as ->.
    { apply andb_false_iff. rewrite !bad_node_false. exact Hn. }
    run_cmd. now rewrite H. }
  split; [unfold cluster_plan; run_cmd; now rewrite H|].
  split; [unfold cluster_clear; run_cmd; now rewrite H|].
  unfold cluster_commit; run_cmd; now rewrite H.
Qed.

Lemma first_line_access_crashes_on_banner_only_witness :
  normalize banner_only_example = [] /\
  exec (fun _ => banner_only_example) version
  = (Raised IndexError, ["riak version"]) /\
  resume (cluster_join "riak@10.0.0.1") banner_only_example
  = Raise IndexError /\
  resume (cluster_leave None true) banner_only_example = Raise IndexError /\
  resume (cluster_replace "riak" "riak@10.0.0.2" false) banner_only_example
  = Raise IndexError /\
  resume cluster_commit banner_only_example = Raise IndexError.
Proof.
  assert (Hraw : forall line,
             In line (split banner_only_example LF) ->
             startswith line "!!!!" = true).
  { intros line Hin. vm_compute in Hin.
    repeat (destruct Hin as [<-|Hin]; [reflexivity|]). destruct Hin. }
  destruct (first_line_access_crashes_on_banner_only banner_only_example Hraw)
    as (Hn & Hv & Hj & Hl & _ & Hr & _ & _ & Hc).
  split; [exact Hn|].
  split; [vm_compute; reflexivity|].
  split; [apply Hj; reflexivity|].
  split; [apply Hl|].
  split; [apply Hr; right; reflexivity|].
  exact Hc.
Defined.

(** C7: [cluster_plan] runs [riak-admin cluster plan]; when the first
    normalised line is exactly ["There are no staged changes"] it answers
    [None], and on any other first normalised line it answers the whole
    list of normalised lines, that first line included, in order. *)
Theorem cluster_plan_none_or_lines :
  pending cluster_plan = Some "riak-admin cluster plan" /\
  (forall (raw first : string) (rest : list string),
     normalize raw = first :: rest ->
     (first = "There are no staged changes" ->
        resume cluster_plan raw = Ret PyNone) /\
     (first <> "There are no staged changes" ->
        resume cluster_plan raw = Ret (PyList (first :: rest)))) /\
  exec (fun _ => "There are no staged changes") cluster_plan
  = (Returned PyNone, ["riak-admin cluster plan"]).
Proof.
  split; [reflexivity|]. split; [|vm_compute; reflexivity].
  intros raw first rest Hn. unfold cluster_plan. run_cmd.
  rewrite Hn, getitem_head. cbn [bind].
  destruct (String.eqb_spec first "There are no staged changes") as [->|Hne];
    split; intros; congruence.
Qed.

Lemma cluster_plan_none_or_lines_witness :
  resume cluster_plan ("There are no staged changes" +:+ LF +:+ "tail")
  = Ret PyNone /\
  resume cluster_plan ("Attempting to restart" +:+ LF +:+ "Action  Nodes(s)"
                       +:+ LF +:+ "join    'riak@10.0.0.2'")
  = Ret (PyList ["Action  Nodes(s)"; "join    'riak@10.0.0.2'"]).
Proof.
  destruct cluster_plan_none_or_lines as (_ & H & _).
  split.
  - apply (H _ "There are no staged changes" ["tail"]); reflexivity.
  - apply (H _ "Action  Nodes(s)" ["join    'riak@10.0.0.2'"]);
      [reflexivity | discriminate].
Defined.

(** C8: [cluster_commit] runs [riak-admin cluster commit]; when the first
    normalised line starts with ["You must verify the plan"] it goes on as
    [cluster_plan] does (a second command, [riak-admin cluster plan], whose
    interpretation is the answer), and on any other first normalised line it
    answers that line itself. *)
Theorem cluster_commit_replans_or_line :
  pending cluster_commit = Some "riak-admin cluster commit" /\
  forall (raw first : string) (rest : list string),
    normalize raw = first :: rest ->
    (startswith first "You must verify the plan" = true ->
       resume cluster_commit raw = cluster_plan /\
       pending (resume cluster_commit raw) = Some "riak-admin cluster plan" /\
       forall sh, sh "riak-admin cluster commit" = raw ->
         exec sh cluster_commit
         = (fst (exec sh cluster_plan),
            "riak-admin cluster commit" :: snd (exec sh cluster_plan))) /\
    (startswith first "You must verify the plan" = false ->
       resume cluster_commit raw = Ret (PyString first) /\
       forall sh, sh "riak-admin cluster commit" = raw ->
         exec sh cluster_commit
         = (Returned (PyString first), ["riak-admin cluster commit"])).
Proof.
  split; [reflexivity|].
  intros raw first rest Hn.
  assert (Hk : resume cluster_commit raw =
               if startswith first "You must verify the plan"
               then cluster_plan else Ret (PyString first)).
  { unfold cluster_commit. run_cmd. rewrite Hn, getitem_head. cbn [bind].
    now destruct (startswith first "You must verify the plan"). }
  assert (Hx : forall sh, sh "riak-admin cluster commit" = raw ->
               exec sh cluster_commit
               = (fst (exec sh (resume cluster_commit raw)),
                  "riak-admin cluster commit"
                    :: snd (exec sh (resume cluster_commit raw)))).
  { intros sh <-. unfold cluster_commit. run_cmd.
    now destruct (exec sh _). }
  split; intros Hs; rewrite Hs in Hk.
  - split; [exact Hk|]. split; [now rewrite Hk|].
    intros sh Hsh. rewrite (Hx sh Hsh), Hk. reflexivity.
  - split; [exact Hk|].
    intros sh Hsh. rewrite (Hx sh Hsh), Hk. reflexivity.
Qed.

Lemma cluster_commit_replans_or_line_witness :
  exec (fun cmd =>
          if String.eqb cmd "riak-admin cluster commit"
          then "You must verify the plan with 'riak-admin cluster plan' first"
          else "There are no staged changes")
       cluster_commit
  = (Returned PyNone,
     ["riak-admin cluster commit"; "riak-admin cluster plan"]) /\
  resume cluster_commit "Cluster changes committed"
  = Ret (PyString "Cluster changes committed").
Proof.
  destruct cluster_commit_replans_or_line as [_ H].
  split.
  - destruct (H "You must verify the plan with 'riak-admin cluster plan' first"
                "You must verify the plan with 'riak-admin cluster plan' first"
                [] eq_refl) as [(_ & _ & Hx) _]; [reflexivity|].
    rewrite Hx; reflexivity.
  - destruct (H "Cluster changes committed" "Cluster changes committed" []
                eq_refl) as [_ Hline].
    apply Hline. reflexivity.
Defined.

End ClusterOperations.

(** ** [member_status] *)

Section MemberStatus.

Lemma summary_item_two (ret : MemberStatus) (item key val : string) :
  split item ":" = [key; val] ->
  summary_item ret item =
  Ret {| membership := membership ret;
         summary := put_summary (summary ret) (key, val) |}.
Proof. intros H. unfold summary_item. now rewrite H. Qed.

Lemma summary_item_other (ret : MemberStatus) (item : string) :
  length (split item ":") <> 2%nat -> summary_item ret item = Raise ValueError.
Proof.
  intros H. unfold summary_item.
  destruct (split item ":") as [|a [|b [|c l]]]; try reflexivity.
  now contradict H.
Qed.

Lemma summary_item_returns (ret : MemberStatus) (item : string) :
  length (split item ":") = 2%nat -> exists ret', summary_item ret item = Ret ret'.
Proof.
  intros H. unfold summary_item.
  destruct (split item ":") as [|a [|b [|c l]]]; try discriminate. eauto.
Qed.

(** The inner loop over well-formed segments inserts them left to right. *)
Lemma summary_loop_pairs (pairs : list (string * string)) :
  forall (items : list string) (ret : MemberStatus),
    map (fun item => split item ":") items
    = map (fun kv : string * string => [kv.1; kv.2]) pairs ->
    for_each summary_item items ret =
    Ret {| membership := membership ret;
           summary := fold_left put_summary pairs (summary ret) |}.
Proof.
  induction pairs as [|[k v] pairs IH]; intros [|item items] ret H;
    try discriminate.
  - now destruct ret.
  - cbn [map] in H. injection H as Hitem Hrest.
    cbn [for_each fold_left]. rewrite (summary_item_two _ _ _ _ Hitem).
    cbn [bind]. now rewrite (IH items _ Hrest).
Qed.

Lemma summary_loop_returns (items : list string) :
  forall ret,
    Forall (fun item => length (split item ":") = 2%nat) items ->
    exists ret', for_each summary_item items ret = Ret ret'.
Proof.
  induction items as [|item items IH]; intros ret H; [now exists ret|].
  apply Forall_cons_1 in H as [Hitem Hrest].
  destruct (summary_item_returns ret item Hitem) as [ret1 H1].
  cbn [for_each]. rewrite H1. cbn [bind]. now apply IH.
Qed.

Lemma summary_loop_raises (items : list string) :
  forall ret,
    Exists (fun item => length (split item ":") <> 2%nat) items ->
    for_each summary_item items ret = Raise ValueError.
Proof.
  induction items as [|item items IH]; intros ret H;
    [now apply Exists_nil in H|].
  cbn [for_each].
  destruct (Nat.eq_dec (length (split item ":")) 2) as [Hok|Hbad].
  - destruct (summary_item_returns ret item Hok) as [ret1 H1].
    rewrite H1. cbn [bind]. apply IH.
    apply Exists_cons in H as [H|H]; [contradiction | exact H].
  - now rewrite summary_item_other.
Qed.

(** The node-row block never raises; it stores a row exactly for four
    tokens. *)
Lemma node_step_returns (ret : MemberStatus) (line : string) :
  exists ret', node_step ret line = Ret ret'.
Proof.
  unfold node_step.
  destruct (split_ws line) as [|a [|b [|c [|d [|e l]]]]]; cbn; eauto.
Qed.

Lemma summary_loop_membership (items : list string) :
  forall ret ret',
    for_each summary_item items ret = Ret ret' ->
    membership ret' = membership ret.
Proof.
  induction items as [|item items IH]; intros ret ret' H.
  - now injection H as <-.
  - cbn [for_each] in H. unfold summary_item in H at 1.
    destruct (split item ":") as [|a [|b [|c l]]]; try discriminate.
    cbn [bind] in H. now rewrite (IH _ _ H).
Qed.

Lemma summary_step_membership (ret ret' : MemberStatus) (line : string) :
  summary_step ret line = Ret ret' -> membership ret' = membership ret.
Proof.
  unfold summary_step. destruct (contains "/" line).
  - apply summary_loop_membership.
  - now intros [= <-].
Qed.

Lemma skipped_true (line : string) :
  skipped line = true <->
  startswith line "=" = true \/ startswith line "-" = true \/
  startswith line "Status" = true.
Proof.
  unfold skipped, startswith_any. cbn [existsb].
  rewrite !orb_true_iff. intuition discriminate.
Qed.

(** Every line either lets the loop body return or makes it raise
    [ValueError]. *)
Lemma member_line_cases (ret : MemberStatus) (line : string) :
  (exists ret', member_line ret line = Ret ret') \/
  member_line ret line = Raise ValueError.
Proof.
  unfold member_line. destruct (skipped line); [left; eauto|].
  unfold summary_step. destruct (contains "/" line).
  - destruct (Forall_Exists_dec
                (fun item => length (split item ":") = 2%nat)
                (fun item => Nat.eq_dec _ _) (split line "/")) as [Hok|Hbad].
    + destruct (summary_loop_returns _ ret Hok) as [r Hr].
      rewrite Hr. cbn [bind]. left. apply node_step_returns.
    + rewrite (summary_loop_raises _ ret Hbad). now right.
  - cbn [bind]. left. apply node_step_returns.
Qed.

(** The node-row block stores the row of a four-token line and leaves the
    membership alone otherwise. *)
Lemma node_step_store (ret : MemberStatus) (line : string) :
  node_step ret line =
  Ret {| membership := store_row (membership ret) line;
         summary := summary ret |}.
Proof.
  unfold node_step, store_row.
  destruct (split_ws line) as [|t0 [|t1 [|t2 [|t3 [|t4 l]]]]]; cbn;
    try reflexivity; now destruct ret.
Qed.

(** One pass of the loop body on a line that is not skipped and whose
    ["/"]-segments, if it has any, are the key/value [pairs]. *)
Lemma member_line_parsed (ret : MemberStatus) (line : string)
      (pairs : list (string * string)) :
  skipped line = false ->
  map (fun item => split item ":") (slash_segments line)
  = map (fun kv : string * string => [kv.1; kv.2]) pairs ->
  member_line ret line =
  Ret {| membership := store_row (membership ret) line;
         summary := fold_left put_summary pairs (summary ret) |}.
Proof.
  intros Hskip Hpairs. unfold member_line, summary_step. rewrite Hskip.
  unfold slash_segments in Hpairs. destruct (contains "/" line).
  - rewrite (summary_loop_pairs pairs _ ret Hpairs). cbn [bind].
    now rewrite node_step_store.
  - destruct pairs; [|discriminate]. cbn [bind fold_left].
    now rewrite node_step_store.
Qed.

(** The whole loop: rows are stored and summary pairs inserted in line
    order, skipped lines contributing nothing. *)
Lemma member_loop_parsed (lines : list string) :
  forall (ret : MemberStatus) (pairs : list (string * string)),
    map (fun item => split item ":")
        (flat_map slash_segments
                  (List.filter (fun line => negb (skipped line)) lines))
    = map (fun kv : string * string => [kv.1; kv.2]) pairs ->
    for_each member_line lines ret =
    Ret {| membership :=
             fold_left store_row
                       (List.filter (fun line => negb (skipped line)) lines)
                       (membership ret);
           summary := fold_left put_summary pairs (summary ret) |}.
Proof.
  induction lines as [|line lines IH]; intros ret pairs Hpairs.
  - destruct pairs; [|discriminate]. now destruct ret.
  - cbn [for_each List.filter] in *.
    destruct (skipped line) eqn:Hskip; cbn [negb] in *.
    + unfold member_line at 1. rewrite Hskip. cbn [bind].
      now apply IH.
    + cbn [flat_map fold_left] in *. rewrite map_app in Hpairs.
      symmetry in Hpairs.
      apply map_eq_app in Hpairs as (p1 & p2 & -> & H1 & H2).
      rewrite (member_line_parsed ret line p1 Hskip (eq_sym H1)).
      cbn [bind]. rewrite (IH _ p2 (eq_sym H2)). cbn [membership summary].
      now rewrite fold_left_app.
Qed.

(** C2, as the code has it: [member_status] skips every line starting with
    ["="], ["-"] or ["Status"].  Provided every ["/"]-segment of the other
    lines holding ["/"] splits on [":"] into a key and a value ([pairs], in
    output order), it returns the dictionary in which each such pair has
    been stored, trimmed, in the summary, and in which each of the other
    lines that whitespace-splits into exactly four tokens maps its fourth
    token to [{Status: first, Ring: second, Pending: third}]; lines are
    taken in output order, so later values overwrite earlier ones.  On the
    example output it answers the membership and summary the specification
    lists. *)
Theorem member_status_parses_output :
  (forall line,
     skipped line = true <->
     startswith line "=" = true \/ startswith line "-" = true \/
     startswith line "Status" = true) /\
  (forall (raw : string) (pairs : list (string * string)),
     let lines :=
       List.filter (fun line => negb (skipped line)) (splitlines raw) in
     map (fun item => split item ":") (flat_map slash_segments lines)
     = map (fun kv : string * string => [kv.1; kv.2]) pairs ->
     resume member_status raw =
     Ret {| membership := fold_left store_row lines ∅;
            summary :=
              fold_left
                (fun m (kv : string * string) =>
                   <[strip kv.1 := PyString (strip kv.2)]> m)
                pairs
                {[ "Valid" := PyInt 0; "Leaving" := PyInt 0;
                   "Exiting" := PyInt 0; "Joining" := PyInt 0;
                   "Down" := PyInt 0 ]} |}) /\
  resume member_status member_status_example =
  Ret {| membership :=
           {[ "'riak@127.0.0.1'" :=
                {[ "Status" := "valid"; "Ring" := "25.0%";
                   "Pending" := "--" ]} ]};
         summary :=
           {[ "Valid" := PyString "1"; "Leaving" := PyString "0";
              "Exiting" := PyString "0"; "Joining" := PyString "0";
              "Down" := PyString "0" ]} |}.
Proof.
  split; [exact skipped_true|]. split; [|vm_compute; reflexivity].
  intros raw pairs lines Hpairs. unfold member_status. run_cmd.
  exact (member_loop_parsed (splitlines raw) initial_ret pairs Hpairs).
Qed.

Lemma member_status_parses_output_witness :
  resume member_status
         ("=== Membership ===" +:+ LF +:+
          "valid 50.0% -- 'riak@10.0.0.1'" +:+ LF +:+
          "Valid : 3 / Down:1 " +:+ LF +:+
          "Status Ring Pending Node" +:+ LF +:+
          "leaving 12.5% 0.0% 'riak@10.0.0.1'" +:+ LF +:+
          "Valid:4")
  = Ret {| membership :=
             {[ "'riak@10.0.0.1'" :=
                  {[ "Status" := "leaving"; "Ring" := "12.5%";
                     "Pending" := "0.0%" ]} ]};
           summary :=
             {[ "Valid" := PyString "3"; "Leaving" := PyInt 0;
                "Exiting" := PyInt 0; "Joining" := PyInt 0;
                "Down" := PyString "1" ]} |}.
Proof.
  destruct member_status_parses_output as (_ & H & _).
  rewrite (H _ [("Valid ", " 3 "); (" Down", "1 ")]).
  - vm_compute. reflexivity.
  - vm_compute. reflexivity.
Defined.

(** C2 as stated fails: the line [valid 25.0% -- 'riak@a/b'] is not skipped
    and whitespace-splits into exactly four tokens, yet no row is stored
    for it; holding a ["/"], it is first taken as a summary line, its one
    segment has no [":"], and [member_status] raises [ValueError]. *)
Lemma member_status_four_tokens_without_row :
  skipped "valid 25.0% -- 'riak@a/b'" = false /\
  split_ws "valid 25.0% -- 'riak@a/b'"
  = ["valid"; "25.0%"; "--"; "'riak@a/b'"] /\
  contains "/" "valid 25.0% -- 'riak@a/b'" = true /\
  resume member_status "valid 25.0% -- 'riak@a/b'" = Raise ValueError.
Proof. vm_compute. repeat split. Qed.

(** C10: [member_status] returns a result exactly when, in every line that
    is not skipped and holds ["/"], every ["/"]-segment has exactly one
    [":"]; as soon as some such line has a segment with no [":"] or with
    two or more, unpacking that segment raises [ValueError] and no mapping
    is returned. *)
Theorem member_status_total_iff_one_colon (raw : string) :
  pending member_status = Some "riak-admin member-status" /\
  (Forall (fun line =>
             skipped line = false -> contains "/" line = true ->
             Forall (fun item => count_char ":" item = 1%nat)
                    (split line "/"))
          (splitlines raw) ->
   exists ret, resume member_status raw = Ret ret) /\
  (Exists (fun line =>
             skipped line = false /\ contains "/" line = true /\
             Exists (fun item => count_char ":" item <> 1%nat)
                    (split line "/"))
          (splitlines raw) ->
   resume member_status raw = Raise ValueError).
Proof.
  split; [reflexivity|].
  unfold member_status. run_cmd.
  generalize initial_ret. generalize (splitlines raw).
  intros lines. split.
  - revert m. induction lines as [|line lines IH]; intros ret H;
      [now exists ret|].
    apply Forall_cons_1 in H as [Hline Hrest].
    cbn [for_each].
    assert (Hret : exists r, member_line ret line = Ret r).
    { unfold member_line. destruct (skipped line); [eauto|].
      unfold summary_step. destruct (contains "/" line).
      - destruct (summary_loop_returns (split line "/") ret) as [r Hr].
        { eapply Forall_impl; [|exact (Hline eq_refl eq_refl)].
          intros item Hitem. cbn beta in Hitem.
          now rewrite (split_char_length ":" item), Hitem. }
        rewrite Hr. cbn [bind]. apply node_step_returns.
      - cbn [bind]. apply node_step_returns. }
    destruct Hret as [r Hr]. rewrite Hr. cbn [bind]. now apply IH.
  - revert m. induction lines as [|line lines IH]; intros ret H;
      [now apply Exists_nil in H|].
    cbn [for_each]. apply Exists_cons in H as [(Hskip & Hslash & Hbad)|H].
    + unfold member_line, summary_step. rewrite Hskip, Hslash.
      rewrite summary_loop_raises; [reflexivity|].
      eapply Exists_impl; [|exact Hbad].
      intros item Hitem. cbn beta in Hitem.
      rewrite (split_char_length ":" item). lia.
    + destruct (member_line_cases ret line) as [[r ->]| ->]; [|reflexivity].
      cbn [bind]. now apply IH.
Qed.

Lemma member_status_total_iff_one_colon_witness :
  (exists ret, resume member_status member_status_example = Ret ret) /\
  resume member_status ("Valid:1 / Down") = Raise ValueError /\
  resume member_status
    ("valid 25.0% -- 'riak@127.0.0.1'" +:+ LF +:+ "Valid:1 / a:b:c") =
  Raise ValueError.
Proof.
  split; [|split].
  - apply (member_status_total_iff_one_colon member_status_example).
    vm_compute splitlines.
    do 5 (apply Forall_cons;
          [intros Hs Hc; vm_compute in Hs, Hc; discriminate|]).
    apply Forall_cons; [intros _ _|apply Forall_nil].
    vm_compute split. repeat (apply Forall_cons; [reflexivity|]).
    apply Forall_nil.
  - apply (member_status_total_iff_one_colon "Valid:1 / Down").
    vm_compute splitlines. apply Exists_cons_hd.
    split; [reflexivity|]. split; [reflexivity|].
    vm_compute split. apply Exists_cons_tl, Exists_cons_hd.
    vm_compute. lia.
  - apply (member_status_total_iff_one_colon
             ("valid 25.0% -- 'riak@127.0.0.1'" +:+ LF +:+ "Valid:1 / a:b:c")).
    vm_compute splitlines. apply Exists_cons_tl, Exists_cons_hd.
    split; [reflexivity|]. split; [reflexivity|].
    vm_compute split. apply Exists_cons_tl, Exists_cons_hd.
    vm_compute. lia.
Defined.

End MemberStatus.

(** ** [status] *)

Section Status.

Lemma status_line_spec (ret : list (gmap string string)) (line : string) :
  status_line ret line = Ret (ret ++ status_row_spec line).
Proof.
  unfold status_line, status_row_spec.
  destruct (split line " : ") as [|a [|b [|c l]]]; cbn;
    now rewrite ?app_nil_r.
Qed.

Lemma status_loop_spec (lines : list string) :
  forall ret,
    for_each status_line lines ret
    = Ret (ret ++ flat_map status_row_spec lines).
Proof.
  induction lines as [|line lines IH]; intros ret.
  - cbn. now rewrite app_nil_r.
  - cbn [for_each flat_map]. rewrite status_line_spec. cbn [bind].
    rewrite IH. now rewrite <- app_assoc.
Qed.

(** C9, as the code has it: [status] runs [riak-admin status] and answers,
    in line order, one single-key mapping [{part0: part1}] for each raw line
    that splits on [" : "] into exactly two parts.  Such a line always holds
    the separator; a line without it, or one that splits into three parts or
    more, contributes nothing.  The line ["vnode_gets : 0"] yields
    [{"vnode_gets": "0"}]. *)
Theorem status_rows_of_two_part_lines :
  pending status = Some "riak-admin status" /\
  (forall raw,
     resume status raw = Ret (flat_map status_row_spec (split raw LF))) /\
  (forall line key value,
     split line " : " = [key; value] ->
     status_row_spec line = [{[ key := value ]}] /\
     contains " : " line = true) /\
  (forall line,
     status_row_spec line = [] <->
     contains " : " line = false \/ (3 <= length (split line " : "))%nat) /\
  resume status "vnode_gets : 0" = Ret [{[ "vnode_gets" := "0" ]}].
Proof.
  split; [reflexivity|]. split; [|split; [|split]].
  - intros raw. unfold status. run_cmd.
    now rewrite status_loop_spec.
  - intros line key value H. unfold status_row_spec. rewrite H.
    split; [reflexivity|].
    destruct (contains " : " line) eqn:Hc; [reflexivity|].
    rewrite (split_absent _ _ Hc) in H. discriminate.
  - intros line. unfold status_row_spec. split.
    + intros Hrow.
      destruct (contains " : " line) eqn:Hc; [right | now left].
      pose proof (split_go_present " : " line ltac:(discriminate) "" Hc) as H2.
      fold (split line " : ") in H2.
      destruct (split line " : ") as [|a [|b [|c l]]]; try discriminate;
        cbn in H2 |- *; lia.
    + intros [Hc|Hlen].
      * now rewrite (split_absent _ _ Hc).
      * destruct (split line " : ") as [|a [|b [|c l]]]; try reflexivity.
        cbn in Hlen. lia.
  - vm_compute. reflexivity.
Qed.

Lemma status_rows_of_two_part_lines_witness :
  status_row_spec "ring_members : ['riak@127.0.0.1']"
  = [{[ "ring_members" := "['riak@127.0.0.1']" ]}] /\
  contains " : " "ring_members : ['riak@127.0.0.1']" = true /\
  status_row_spec "1-minute stats for 'riak@127.0.0.1'" = [] /\
  status_row_spec "a : b : c" = [].
Proof.
  destruct status_rows_of_two_part_lines as (_ & _ & Htwo & Hnone & _).
  split; [|split; [|split]].
  - apply (Htwo _ "ring_members" "['riak@127.0.0.1']"). reflexivity.
  - apply (Htwo _ "ring_members" "['riak@127.0.0.1']"). reflexivity.
  - apply Hnone. left. reflexivity.
  - apply Hnone. right. vm_compute. lia.
Defined.

(** C9 as stated fails: the raw line ["a : b : c"] holds the separator
    [" : "], yet it splits into three parts and [status] emits no element
    for it. *)
Lemma status_separator_line_without_element :
  split "a : b : c" LF = ["a : b : c"] /\
  contains " : " "a : b : c" = true /\
  split "a : b : c" " : " = ["a"; "b"; "c"] /\
  resume status "a : b : c" = Ret [].
Proof. vm_compute. repeat split. Qed.

End Status.

(** ** Splitting and joining *)

Section SplitJoin.

Lemma append_empty_l (s : string) : "" +:+ s = s.
Proof. reflexivity. Qed.

Lemma append_length (s t : string) :
  String.length (s +:+ t) = (String.length s + String.length t)%nat.
Proof.
  induction s as [|c s IH]; [reflexivity|].
  rewrite append_cons. cbn [String.length]. now rewrite IH.
Qed.

Lemma prefix_decompose (p : string) :
  forall s, String.prefix p s = true -> exists rest, s = p +:+ rest.
Proof.
  induction p as [|a p IH]; intros s H; [now exists s|].
  destruct s as [|b s]; [discriminate|].
  cbn [String.prefix] in H. destruct (ascii_dec a b) as [->|]; [|discriminate].
  destruct (IH s H) as [rest ->]. now exists rest.
Qed.

Lemma prefix_append (p rest : string) : String.prefix p (p +:+ rest) = true.
Proof.
  induction p as [|a p IH]; [apply prefix_empty|].
  rewrite append_cons. cbn [String.prefix].
  destruct (ascii_dec a a); [exact IH | congruence].
Qed.

(** Once a separator is matched, the scan passes over the rest of it. *)
Lemma split_go_skip (sep pre rest : string) :
  forall cur,
    split_go sep (String.length pre) cur (pre +:+ rest)
    = split_go sep 0 cur rest.
Proof.
  induction pre as [|a pre IH]; intros cur; [reflexivity|].
  rewrite append_cons. cbn [String.length split_go]. apply IH.
Qed.

Lemma split_go_match (c : ascii) (sep' cur rest : string) :
  split_go (String c sep') 0 cur (String c sep' +:+ rest)
  = cur :: split_go (String c sep') 0 "" rest.
Proof.
  pose proof (prefix_append (String c sep') rest) as Hp.
  rewrite append_cons in Hp |- *. cbn [split_go]. rewrite Hp.
  cbn [String.length]. rewrite Nat.sub_1_r. cbn [Nat.pred].
  now rewrite split_go_skip.
Qed.

Lemma split_nonempty (s sep : string) : split s sep <> [].
Proof.
  pose proof (split_go_nonempty sep s 0 "") as H. unfold split.
  destruct (split_go sep 0 "" s); [cbn in H; lia | discriminate].
Qed.

Lemma join_cons (sep x : string) (l : list string) :
  l <> [] -> join sep (x :: l) = x +:+ sep +:+ join sep l.
Proof. destruct l; [congruence | reflexivity]. Qed.

(** Joining the parts of a split with the separator gives the text back. *)
Lemma join_split_go (sep : string) :
  sep <> "" ->
  forall n s cur,
    (String.length s <= n)%nat ->
    join sep (split_go sep 0 cur s) = cur +:+ s.
Proof.
  intros Hsep. destruct sep as [|c sep']; [congruence|].
  induction n as [|n IH]; intros s cur Hlen.
  - destruct s; [|cbn in Hlen; lia]. cbn. now rewrite append_empty_r.
  - destruct s as [|a s]; [cbn; now rewrite append_empty_r|].
    destruct (String.prefix (String c sep') (String a s)) eqn:Hp.
    + destruct (prefix_decompose _ _ Hp) as [rest Hrest].
      rewrite Hrest, split_go_match.
      rewrite join_cons.
      2:{ pose proof (split_go_nonempty (String c sep') rest 0 "") as H.
          destruct (split_go _ 0 "" rest); [cbn in H; lia | discriminate]. }
      rewrite IH; [reflexivity|].
      apply (f_equal String.length) in Hrest.
      rewrite append_length in Hrest. cbn [String.length] in Hrest, Hlen. lia.
    + cbn [split_go]. rewrite Hp. rewrite IH by (cbn in Hlen; lia).
      apply append_snoc.
Qed.

Lemma join_split (s sep : string) : sep <> "" -> join sep (split s sep) = s.
Proof.
  intros Hsep. unfold split.
  now rewrite (join_split_go sep Hsep (String.length s) s "").
Qed.

(** Only the empty text splits into a single empty part. *)
Lemma split_single_empty (s sep : string) :
  sep <> "" -> split s sep = [""] <-> s = "".
Proof.
  intros Hsep. split; [|now intros ->].
  intros H. rewrite <- (join_split s sep Hsep), H. reflexivity.
Qed.

(** The first part of a split on one character is the text before that
    character's first occurrence. *)
Lemma split_go_char_head (c : ascii) (s : string) :
  forall cur,
    split_go (String c "") 0 cur s !! 0%nat = Some (cur +:+ before_char c s).
Proof.
  induction s as [|a s IH]; intros cur.
  - cbn. now rewrite append_empty_r.
  - cbn [split_go before_char String.prefix].
    destruct (ascii_dec c a) as [->|Hne].
    + rewrite Ascii.eqb_refl, prefix_empty. cbn. now rewrite append_empty_r.
    + assert (Ascii.eqb a c = false) as -> by (apply Ascii.eqb_neq; congruence).
      rewrite IH. now rewrite append_snoc.
Qed.

Lemma split_char_head (c : ascii) (s : string) :
  split s (String c "") !! 0%nat = Some (before_char c s).
Proof. apply split_go_char_head. Qed.

(** A prefix free of [c] cannot tell a text from its part before [c]. *)
Lemma prefix_before_char (c : ascii) (p : string) :
  count_char c p = 0%nat ->
  forall s, String.prefix p (before_char c s) = String.prefix p s.
Proof.
  induction p as [|a p IH]; intros Hp s;
    [now rewrite !prefix_empty|].
  cbn [count_char] in Hp.
  destruct (Ascii.eqb a c) eqn:Hac; [discriminate|].
  destruct s as [|b s]; [reflexivity|].
  cbn [before_char]. destruct (Ascii.eqb b c) eqn:Hbc.
  - apply Ascii.eqb_eq in Hbc as ->. cbn [String.prefix].
    destruct (ascii_dec a c) as [->|]; [|reflexivity].
    now rewrite Ascii.eqb_refl in Hac.
  - cbn [String.prefix]. destruct (ascii_dec a b); [|reflexivity].
    apply IH. exact Hp.
Qed.

End SplitJoin.

(** ** The raw-output queries: [ringready], [ring_status], [transfers],
    [diag] *)

Section RawQueries.

Lemma split_LF_head (raw : string) :
  split raw LF !! 0%nat = Some (before_char (ascii_of_nat 10) raw).
Proof. apply split_char_head. Qed.

Lemma ringready_answer (raw : string) :
  resume ringready raw = Ret (PyBool (startswith raw "TRUE")).
Proof.
  unfold ringready. run_cmd.
  rewrite split_LF_head.
  assert ((0 <? length (split raw LF))%nat = true) as ->.
  { apply Nat.ltb_lt. pose proof (split_nonempty raw LF).
    destruct (split raw LF); [congruence | cbn; lia]. }
  cbn [andb]. unfold startswith.
  rewrite (prefix_before_char (ascii_of_nat 10) "TRUE" eq_refl raw).
  now destruct (String.prefix "TRUE" raw).
Qed.

(** X1: [ringready] never raises and looks at nothing but the first four
    characters of the output: it answers [True] exactly when the raw output
    starts with ["TRUE"], so an empty output gives [False]. *)
Theorem ringready_true_iff_output_starts_with_TRUE :
  pending ringready = Some "riak-admin ringready" /\
  (forall raw, resume ringready raw = Ret (PyBool (startswith raw "TRUE"))) /\
  resume ringready "" = Ret (PyBool false).
Proof.
  split; [reflexivity|]. split; [exact ringready_answer | reflexivity].
Qed.

Lemma str_upto_one_eq (line : string) (c : ascii) :
  String.eqb (str_upto line 1) (String c "") = startswith line (String c "").
Proof.
  unfold str_upto, startswith. destruct line as [|a s]; [reflexivity|].
  cbn [String.substring String.prefix].
  assert (String.substring 0 0 s = "") as -> by now destruct s.
  rewrite prefix_empty. cbn [String.eqb].
  destruct (ascii_dec c a) as [->|Hne].
  - now rewrite Ascii.eqb_refl.
  - assert (Ascii.eqb a c = false) as -> by (apply Ascii.eqb_neq; congruence).
    reflexivity.
Qed.

Lemma ring_status_line_keeps (ret : list string) (line : string) :
  ring_status_line ret line
  = Ret (ret ++ List.filter ring_status_keeps [line]).
Proof.
  unfold ring_status_line, ring_status_keeps. cbn [List.filter].
  rewrite !str_upto_one_eq.
  assert ((0 <? String.length line)%nat = negb (String.eqb line "")) as ->
    by now destruct line.
  destruct (negb (String.eqb line "") && negb (startswith line "=")
            && negb (startswith line " ")); [reflexivity|].
  now rewrite app_nil_r.
Qed.

Lemma ring_status_loop (lines : list string) :
  forall ret,
    for_each ring_status_line lines ret
    = Ret (ret ++ List.filter ring_status_keeps lines).
Proof.
  induction lines as [|line lines IH]; intros ret.
  - cbn. now rewrite app_nil_r.
  - cbn [for_each]. rewrite ring_status_line_keeps. cbn [bind].
    rewrite IH, <- app_assoc. f_equal. f_equal.
    cbn [List.filter]. now destruct (ring_status_keeps line).
Qed.

(** X2: [ring_status] never raises.  It drops the first raw line whatever it
    is, and of the lines after it returns, in order, exactly those that are
    non-empty and start with neither ["="] nor a blank; an output of a
    single line therefore gives the empty list. *)
Theorem ring_status_keeps_plain_lines_after_first (raw : string) :
  exists ret,
    resume ring_status raw = Ret (PyList ret) /\
    ret = List.filter ring_status_keeps (tail (split raw LF)) /\
    (forall line,
       In line ret <->
       In line (tail (split raw LF)) /\ line <> "" /\
       startswith line "=" = false /\ startswith line " " = false) /\
    (contains LF raw = false -> ret = []).
Proof.
  eexists. split; [|split; [reflexivity|split]].
  - unfold ring_status. run_cmd. rewrite ring_status_loop. cbn [bind app].
    unfold list_slice. rewrite take_ge by lia.
    now destruct (split raw LF).
  - intros line. rewrite filter_In. unfold ring_status_keeps.
    rewrite !andb_true_iff, !negb_true_iff, String.eqb_neq. tauto.
  - intros H. now rewrite (split_absent _ _ H).
Qed.

Lemma ring_status_keeps_plain_lines_after_first_witness :
  exists ret,
    resume ring_status "no newline in this output" = Ret (PyList ret) /\
    ret = [].
Proof.
  destruct (ring_status_keeps_plain_lines_after_first
              "no newline in this output") as (ret & Hret & _ & _ & Hone).
  exists ret. split; [exact Hret|]. apply Hone. reflexivity.
Defined.

(** X3: [transfers] never raises, although it reads [out[0]] unguarded: a split
    always has a first part.  It answers the first raw line alone when that
    line is ["No transfers active"] (whatever follows is dropped) and
    otherwise all raw lines, which joined by newlines give the raw output
    back. *)
Theorem transfers_first_line_or_all_lines (raw : string) :
  exists first rest,
    split raw LF = first :: rest /\
    join LF (first :: rest) = raw /\
    (first = "No transfers active" ->
       resume transfers raw = Ret (PyString "No transfers active")) /\
    (first <> "No transfers active" ->
       resume transfers raw = Ret (PyList (first :: rest))).
Proof.
  pose proof (split_nonempty raw LF) as Hne.
  pose proof (join_split raw LF ltac:(discriminate)) as Hj.
  unfold transfers. run_cmd.
  destruct (split raw LF) as [|first rest]; [congruence|].
  exists first, rest. split; [reflexivity|]. split; [exact Hj|].
  rewrite getitem_head. cbn [bind].
  destruct (String.eqb_spec first "No transfers active") as [->|Hneq];
    split; intros; congruence.
Qed.

Lemma transfers_first_line_or_all_lines_witness :
  resume transfers ("No transfers active" +:+ LF +:+ "trailing text")
  = Ret (PyString "No transfers active") /\
  resume transfers "" = Ret (PyList [""]).
Proof.
  split.
  - destruct (transfers_first_line_or_all_lines
                ("No transfers active" +:+ LF +:+ "trailing text"))
      as (first & rest & Hs & _ & Hyes & _).
    apply Hyes. vm_compute in Hs. now injection Hs as <- _.
  - destruct (transfers_first_line_or_all_lines "")
      as (first & rest & Hs & _ & _ & Hno).
    vm_compute in Hs. injection Hs as <- <-. now apply Hno.
Defined.

(** X4: [diag] never raises.  It answers ["Nothing to report"] exactly when the
    raw output is the empty text; for any other output, a lone newline
    included, it answers the non-empty list of raw lines, which joined by
    newlines give the raw output back. *)
Theorem diag_nothing_to_report_iff_empty_output (raw : string) :
  (raw = "" -> resume diag raw = Ret (PyString "Nothing to report")) /\
  (raw <> "" ->
     resume diag raw = Ret (PyList (split raw LF)) /\
     split raw LF <> [] /\
     join LF (split raw LF) = raw).
Proof.
  split; [now intros ->|].
  intros Hraw. split; [|split].
  - unfold diag. run_cmd.
    pose proof (split_single_empty raw LF ltac:(discriminate)) as Hsingle.
    destruct (split raw LF) as [|x [|y l]]; try reflexivity.
    destruct x; [|reflexivity].
    exfalso. apply Hraw, Hsingle. reflexivity.
  - apply split_nonempty.
  - apply join_split. discriminate.
Qed.

Lemma diag_nothing_to_report_iff_empty_output_witness :
  resume diag "" = Ret (PyString "Nothing to report") /\
  resume diag LF = Ret (PyList [""; ""]).
Proof.
  split.
  - now apply (diag_nothing_to_report_iff_empty_output "").
  - destruct (diag_nothing_to_report_iff_empty_output LF) as [_ H].
    now apply H.
Defined.

(** X5: [ping] runs the one command [riak ping] and answers ["pong"] exactly
    when its exit code is 0, the empty text for every other code, negative
    ones included; [is_up], [start], [stop] and [restart] answer [True]
    under the same condition on their own command. *)
Theorem ping_pong_iff_exit_code_zero (sh : string -> Z) :
  rc_exec sh ping
  = (if (sh "riak ping" =? 0)%Z then "pong" else "", ["riak ping"]) /\
  rc_exec sh is_up = ((sh "riak ping" =? 0)%Z, ["riak ping"]) /\
  rc_exec sh start = ((sh "riak start" =? 0)%Z, ["riak start"]) /\
  rc_exec sh stop = ((sh "riak stop" =? 0)%Z, ["riak stop"]) /\
  rc_exec sh restart = ((sh "riak restart" =? 0)%Z, ["riak restart"]).
Proof.
  unfold ping, is_up, start, stop, restart, cmd_retcode, bool_of_int.
  cbn [rc_bind rc_exec]. rewrite !negb_involutive.
  repeat split. now destruct (sh "riak ping" =? 0)%Z.
Qed.

End RawQueries.

(** ** What the normalising operations can and cannot answer *)

Section NormalizedAnswers.

Lemma filter_sublist {A : Type} (f : A -> bool) (l : list A) :
  List.filter f l `sublist_of` l.
Proof.
  induction l as [|x l IH]; [constructor|].
  cbn [List.filter]. destruct (f x); now constructor.
Qed.

Lemma sublist_In {A : Type} (l1 l2 : list A) (x : A) :
  l1 `sublist_of` l2 -> In x l1 -> In x l2.
Proof.
  induction 1 as [|y l1 l2 _ IH|y l1 l2 _ IH]; cbn; intuition.
Qed.

(** [normalize] is [non_banner_lines] with at most one leading
    ["Attempting"] line removed. *)
Lemma normalize_cases (raw : string) :
  normalize raw =
  match non_banner_lines raw with
  | first :: rest =>
      if startswith first "Attempting" then rest else first :: rest
  | [] => []
  end.
Proof.
  unfold normalize, non_banner_lines.
  destruct (List.filter _ (split raw LF)) as [|first rest]; [reflexivity|].
  cbn. now destruct (startswith first "Attempting").
Qed.

Lemma normalize_sublist_non_banner (raw : string) :
  normalize raw `sublist_of` non_banner_lines raw.
Proof.
  rewrite normalize_cases.
  destruct (non_banner_lines raw) as [|first rest]; [constructor|].
  destruct (startswith first "Attempting"); [now constructor | reflexivity].
Qed.

Lemma normalize_sublist_raw (raw : string) :
  normalize raw `sublist_of` split raw LF.
Proof.
  etransitivity; [apply normalize_sublist_non_banner|].
  apply filter_sublist.
Qed.

Lemma normalize_line (raw line : string) :
  In line (normalize raw) ->
  In line (split raw LF) /\ startswith line "!!!!" = false.
Proof.
  intros H.
  apply (sublist_In _ _ _ (normalize_sublist_non_banner raw)) in H.
  unfold non_banner_lines in H. apply filter_In in H as [Hin Hb].
  split; [exact Hin | now apply negb_true_iff].
Qed.

Lemma normalize_first_line (raw first : string) (rest : list string) :
  normalize raw = first :: rest ->
  In first (split raw LF) /\ startswith first "!!!!" = false.
Proof. intros H. apply normalize_line. rewrite H. now left. Qed.

(** X6: The normaliser only ever removes lines: what is left is, in order, a
    selection of the raw lines (so it is never longer), and no line left
    starts with ["!!!!"]. *)
Theorem normalize_selects_non_banner_raw_lines (raw : string) :
  normalize raw `sublist_of` split raw LF /\
  (length (normalize raw) <= length (split raw LF))%nat /\
  (forall line,
     In line (normalize raw) ->
     In line (split raw LF) /\ startswith line "!!!!" = false).
Proof.
  pose proof (normalize_sublist_raw raw) as H.
  split; [exact H|]. split; [now apply sublist_length|].
  apply normalize_line.
Qed.

Lemma normalize_selects_non_banner_raw_lines_witness :
  In "Ring Ready" (split ("!!!!" +:+ LF +:+ "Attempting" +:+ LF +:+ "Ring Ready") LF)
  /\ startswith "Ring Ready" "!!!!" = false.
Proof.
  apply (normalize_selects_non_banner_raw_lines
           ("!!!!" +:+ LF +:+ "Attempting" +:+ LF +:+ "Ring Ready")).
  vm_compute. left. reflexivity.
Defined.

(** X7: [version] raises [IndexError] exactly when the lines left after removing
    the ["!!!!"] lines are none at all or a single ["Attempting"] line;
    only one leading ["Attempting"] line is dropped, so a second one is
    the answer; and on the empty output it answers the empty text rather
    than raising. *)
Theorem version_crashes_iff_nothing_left :
  (forall raw,
     resume version raw = Raise IndexError <->
     non_banner_lines raw = [] \/
     exists a, non_banner_lines raw = [a] /\
               startswith a "Attempting" = true) /\
  (forall raw a b rest,
     non_banner_lines raw = a :: b :: rest ->
     startswith a "Attempting" = true ->
     resume version raw = Ret (PyString b)) /\
  (forall raw v,
     resume version raw = Ret v ->
     exists line, v = PyString line /\ In line (split raw LF) /\
                  startswith line "!!!!" = false) /\
  resume version "" = Ret (PyString "").
Proof.
  split; [|split; [|split; [|reflexivity]]].
  - intros raw. unfold version. run_cmd. rewrite normalize_cases.
    destruct (non_banner_lines raw) as [|a [|b rest]].
    + cbn. split; [now left | reflexivity].
    + destruct (startswith a "Attempting") eqn:Ha; cbn.
      * split; [right; eauto | reflexivity].
      * split; [discriminate|].
        intros [H|(a' & [= <-] & Ha')]; congruence.
    + destruct (startswith a "Attempting"); cbn;
        (split; [discriminate | intros [H|(a' & H & _)]; discriminate]).
  - intros raw a b rest Hn Ha. unfold version. run_cmd.
    now rewrite normalize_cases, Hn, Ha.
  - intros raw v. unfold version. run_cmd.
    destruct (normalize raw) as [|first rest] eqn:Hn; [discriminate|].
    rewrite getitem_head. cbn [bind]. intros [= <-].
    exists first. split; [reflexivity|].
    exact (normalize_first_line _ _ _ Hn).
Qed.

Lemma version_crashes_iff_nothing_left_witness :
  resume version ("!!!! banner" +:+ LF +:+ "Attempting to restart script")
  = Raise IndexError /\
  resume version ("Attempting one" +:+ LF +:+ "Attempting two")
  = Ret (PyString "Attempting two").
Proof.
  destruct version_crashes_iff_nothing_left as (Hcrash & Hsecond & _ & _).
  split.
  - apply Hcrash. right. exists "Attempting to restart script".
    split; reflexivity.
  - apply (Hsecond _ "Attempting one" "Attempting two" []); reflexivity.
Defined.

Lemma success_or_line_answer (msgs : list string) (v : PyVal) :
  success_or_line msgs = Ret v ->
  exists first rest,
    msgs = first :: rest /\
    (v = PyBool true /\ startswith first "Success" = true \/
     v = PyString first /\ startswith first "Success" = false).
Proof.
  destruct msgs as [|first rest]; [discriminate|].
  rewrite success_or_line_head. intros H. exists first, rest.
  split; [reflexivity|].
  destruct (startswith first "Success"); injection H as <-; auto.
Qed.

(** X8: The answers of [cluster_join], [cluster_leave] and [cluster_replace]:
    a boolean, or a text that is one of the raw output lines and starts with
    neither ["Success"] nor ["!!!!"]; never [None], never a list. *)
Theorem cluster_change_answers (raw : string) (v : PyVal) :
  (forall node,
     resume (cluster_join node) raw = Ret v -> bool_or_raw_line raw v) /\
  (forall node force,
     resume (cluster_leave node force) raw = Ret v ->
     bool_or_raw_line raw v) /\
  (forall node1 node2 force,
     resume (cluster_replace node1 node2 force) raw = Ret v ->
     bool_or_raw_line raw v).
Proof.
  assert (Hshared : forall w,
            w = Ret (PyBool false) \/ w = success_or_line (normalize raw) ->
            w = Ret v -> bool_or_raw_line raw v).
  { intros w [->| ->] Hv; [injection Hv as <-; left; eauto|].
    apply success_or_line_answer in Hv
      as (first & rest & Hn & [[-> _]|[-> Hs]]); [left; eauto|].
    right. exists first. destruct (normalize_first_line _ _ _ Hn).
    auto. }
  split; [|split].
  - intros node. apply Hshared. unfold cluster_join.
    destruct (bad_node node); [now left | now right].
  - intros node force. apply Hshared. unfold cluster_leave.
    destruct node as [n|]; [destruct (bad_node n)|]; auto.
  - intros node1 node2 force. apply Hshared. unfold cluster_replace.
    destruct (bad_node node1 && bad_node node2); auto.
Qed.

Lemma cluster_change_answers_witness :
  bool_or_raw_line ("!!!! noise" +:+ LF +:+ "Failed: not reachable")
                   (PyString "Failed: not reachable").
Proof.
  destruct (cluster_change_answers
              ("!!!! noise" +:+ LF +:+ "Failed: not reachable")
              (PyString "Failed: not reachable")) as (Hjoin & _ & _).
  apply (Hjoin "riak@10.0.0.1"). reflexivity.
Defined.

(** X9: [cluster_leave] picks its command from [force] and appends the node
    when one is given: without a node it is never rejected and always runs
    one command; with a node failing the ["@"] check it answers [False] and
    runs nothing, whatever [force] is. *)
Theorem cluster_leave_command (force : bool) :
  let base := if force then "riak-admin cluster force-remove"
              else "riak-admin cluster leave" in
  pending (cluster_leave None force) = Some base /\
  (forall node,
     length (split node "@") = 2%nat ->
     pending (cluster_leave (Some node) force) = Some (base +:+ " " +:+ node)) /\
  (forall node,
     length (split node "@") <> 2%nat ->
     forall sh,
       exec sh (cluster_leave (Some node) force)
       = (Returned (PyBool false), [])) /\
  (forall node raw first rest,
     node = None \/ (exists n, node = Some n /\ length (split n "@") = 2%nat) ->
     normalize raw = first :: rest ->
     resume (cluster_leave node force) raw =
     if startswith first "Success" then Ret (PyBool true)
     else Ret (PyString first)).
Proof.
  cbn zeta. split; [now destruct force|]. split; [|split].
  - intros node H. apply bad_node_false in H.
    unfold cluster_leave. rewrite H. now destruct force.
  - intros node H sh. apply bad_node_true in H.
    unfold cluster_leave. now rewrite H.
  - intros node raw first rest Hnode Hn.
    assert (match node with Some n => bad_node n | None => false end = false)
      as Hok.
    { destruct Hnode as [->|(n & -> & H)]; [reflexivity|].
      now apply bad_node_false. }
    unfold cluster_leave. rewrite Hok. run_cmd.
    now rewrite Hn, success_or_line_head.
Qed.

Lemma cluster_leave_command_witness :
  pending (cluster_leave (Some "riak@10.0.0.2") true)
  = Some "riak-admin cluster force-remove riak@10.0.0.2" /\
  exec (fun _ => "Success") (cluster_leave (Some "riak") true)
  = (Returned (PyBool false), []) /\
  resume (cluster_leave None true) "Failed: only member"
  = Ret (PyString "Failed: only member").
Proof.
  destruct (cluster_leave_command true) as (_ & Hnode & Hbad & Hline).
  split; [|split].
  - apply (Hnode "riak@10.0.0.2"). reflexivity.
  - apply (Hbad "riak"). vm_compute. lia.
  - apply (Hline None "Failed: only member" "Failed: only member" []);
      [now left | reflexivity].
Defined.

(** X10: [cluster_clear] answers [True] exactly when the first normalised line
    is the whole sentence ["Cleared staged cluster changes"] (a longer line
    that merely starts with it is answered as text); any other answer is a
    raw, non-banner output line different from that sentence. *)
Theorem cluster_clear_true_iff_exact_line (raw : string) :
  pending cluster_clear = Some "riak-admin cluster clear" /\
  (forall first rest,
     normalize raw = first :: rest ->
     (resume cluster_clear raw = Ret (PyBool true) <->
        first = "Cleared staged cluster changes") /\
     (first <> "Cleared staged cluster changes" ->
        resume cluster_clear raw = Ret (PyString first))) /\
  (forall v,
     resume cluster_clear raw = Ret v ->
     v = PyBool true \/
     exists line,
       v = PyString line /\ line <> "Cleared staged cluster changes" /\
       In line (split raw LF) /\ startswith line "!!!!" = false).
Proof.
  split; [reflexivity|].
  assert (Hk : forall first rest,
            normalize raw = first :: rest ->
            resume cluster_clear raw =
            if String.eqb first "Cleared staged cluster changes"
            then Ret (PyBool true) else Ret (PyString first)).
  { intros first rest Hn. unfold cluster_clear. run_cmd.
    rewrite Hn, getitem_head. cbn [bind].
    now destruct (String.eqb first "Cleared staged cluster changes"). }
  split.
  - intros first rest Hn. rewrite (Hk _ _ Hn).
    destruct (String.eqb_spec first "Cleared staged cluster changes");
      split; try easy.
  - intros v Hv.
    destruct (normalize raw) as [|first rest] eqn:Hn.
    { unfold cluster_clear in Hv. revert Hv. run_cmd. now rewrite Hn. }
    rewrite (Hk _ _ eq_refl) in Hv.
    destruct (String.eqb_spec first "Cleared staged cluster changes");
      injection Hv as <-; [now left|].
    right. exists first. destruct (normalize_first_line _ _ _ Hn). auto.
Qed.

Lemma cluster_clear_true_iff_exact_line_witness :
  resume cluster_clear "Cleared staged cluster changes." =
  Ret (PyString "Cleared staged cluster changes.").
Proof.
  destruct (cluster_clear_true_iff_exact_line
              "Cleared staged cluster changes.") as (_ & H & _).
  apply (H "Cleared staged cluster changes." []); [reflexivity|discriminate].
Defined.

End NormalizedAnswers.

(** ** Commands run *)

Section CommandsRun.

Lemma bind_silent {A B : Type} (p : Prog A) (f : A -> Prog B) :
  pending p = None -> (forall a, pending (f a) = None) ->
  pending (bind p f) = None.
Proof. destruct p; cbn; auto; discriminate. Qed.

Lemma getitem_silent {A : Type} (l : list A) (i : nat) :
  pending (getitem l i) = None.
Proof. unfold getitem. now destruct (l !! i). Qed.

Lemma for_each_silent {A S : Type} (body : S -> A -> Prog S) (xs : list A) :
  (forall s x, pending (body s x) = None) ->
  forall s, pending (for_each body xs s) = None.
Proof.
  intros Hbody. induction xs as [|x xs IH]; intros s; [reflexivity|].
  cbn [for_each]. now apply bind_silent.
Qed.

Lemma success_or_line_silent (msgs : list string) :
  pending (success_or_line msgs) = None.
Proof.
  unfold success_or_line. apply bind_silent; [apply getitem_silent|].
  intros m. destruct (startswith m "Success"); [reflexivity|].
  apply bind_silent; [apply getitem_silent | reflexivity].
Qed.

Lemma member_line_silent (ret : MemberStatus) (line : string) :
  pending (member_line ret line) = None.
Proof.
  unfold member_line. destruct (skipped line); [reflexivity|].
  apply bind_silent.
  - unfold summary_step. destruct (contains "/" line); [|reflexivity].
    apply for_each_silent. intros s x. unfold summary_item.
    now destruct (split x ":") as [|a [|b [|c l]]].
  - intros r. now destruct (node_step_returns r line) as [r' ->].
Qed.

Lemma exec_silent {A : Type} (sh : string -> string) (p : Prog A) :
  pending p = None -> snd (exec sh p) = [].
Proof. destruct p; [reflexivity | reflexivity | discriminate]. Qed.

(** A computation that waits on [cmd] and, whatever the output, needs no
    further command, runs exactly [cmd]. *)
Lemma one_command {A : Type} (p : Prog A) (cmd : string) :
  pending p = Some cmd ->
  (forall raw, pending (resume p raw) = None) ->
  forall sh, snd (exec sh p) = [cmd].
Proof.
  destruct p as [a|e|c k]; try discriminate.
  intros [= ->] Hk sh. cbn [exec].
  pose proof (exec_silent sh (k (sh cmd)) (Hk (sh cmd))) as Hs.
  destruct (exec sh (k (sh cmd))). cbn in Hs |- *. now rewrite Hs.
Qed.

(** X11: Whatever the executor answers, and whether the operation returns or
    raises, each operation that passes its validation runs exactly one
    command, its own; only [cluster_commit] may run a second one,
    [riak-admin cluster plan], and never a third. *)
Theorem operations_run_one_command (sh : string -> string) :
  snd (exec sh version) = ["riak version"] /\
  (forall node, length (split node "@") = 2%nat ->
     snd (exec sh (cluster_join node)) = ["riak-admin cluster join " +:+ node]) /\
  (forall node1 node2 force,
     length (split node1 "@") = 2%nat \/ length (split node2 "@") = 2%nat ->
     snd (exec sh (cluster_replace node1 node2 force))
     = ["riak-admin cluster replace " +:+ node1 +:+ " " +:+ node2]) /\
  snd (exec sh cluster_plan) = ["riak-admin cluster plan"] /\
  snd (exec sh cluster_clear) = ["riak-admin cluster clear"] /\
  (snd (exec sh cluster_commit) = ["riak-admin cluster commit"] \/
   snd (exec sh cluster_commit)
   = ["riak-admin cluster commit"; "riak-admin cluster plan"]) /\
  snd (exec sh ringready) = ["riak-admin ringready"] /\
  snd (exec sh ring_status) = ["riak-admin ring-status"] /\
  snd (exec sh member_status) = ["riak-admin member-status"] /\
  snd (exec sh transfers) = ["riak-admin transfers"] /\
  snd (exec sh diag) = ["riak-admin diag"] /\
  snd (exec sh status) = ["riak-admin status"].
Proof.
  assert (Hplan : snd (exec sh cluster_plan) = ["riak-admin cluster plan"]).
  { apply one_command; [reflexivity|]. intros raw.
    unfold cluster_plan. run_cmd.
    apply bind_silent; [apply getitem_silent|].
    intros m. now destruct (String.eqb m "There are no staged changes"). }
  repeat apply conj.
  - apply one_command; [reflexivity|]. intros raw. unfold version. run_cmd.
    apply bind_silent; [apply getitem_silent | reflexivity].
  - intros node H. apply bad_node_false in H.
    unfold cluster_join. rewrite H.
    apply one_command; [reflexivity|]. intros raw. run_cmd.
    apply success_or_line_silent.
  - intros node1 node2 force H. unfold cluster_replace.
    assert (bad_node node1 && bad_node node2 = false) as ->.
    { apply andb_false_iff. now rewrite !bad_node_false. }
    apply one_command; [reflexivity|]. intros raw. run_cmd.
    apply success_or_line_silent.
  - exact Hplan.
  - apply one_command; [reflexivity|]. intros raw.
    unfold cluster_clear. run_cmd.
    apply bind_silent; [apply getitem_silent|].
    intros m. destruct (String.eqb m "Cleared staged cluster changes");
      [reflexivity|].
    apply bind_silent; [apply getitem_silent | reflexivity].
  - unfold cluster_commit. run_cmd.
    destruct (normalize (sh "riak-admin cluster commit")) as [|first rest].
    { left. reflexivity. }
    rewrite getitem_head. cbn [bind].
    destruct (startswith first "You must verify the plan").
    + right. destruct (exec sh cluster_plan) as [r cmds].
      cbn in Hplan |- *. now rewrite Hplan.
    + left. reflexivity.
  - apply one_command; [reflexivity|]. intros raw.
    now rewrite ringready_answer.
  - apply one_command; [reflexivity|]. intros raw.
    unfold ring_status. run_cmd. now rewrite ring_status_loop.
  - apply one_command; [reflexivity|]. intros raw.
    unfold member_status. run_cmd.
    apply for_each_silent, member_line_silent.
  - apply one_command; [reflexivity|]. intros raw.
    unfold transfers. run_cmd.
    apply bind_silent; [apply getitem_silent|].
    intros o. destruct (String.eqb o "No transfers active"); [|reflexivity].
    apply bind_silent; [apply getitem_silent | reflexivity].
  - apply one_command; [reflexivity|]. intros raw.
    unfold diag. run_cmd.
    now destruct (_ && _).
  - apply one_command; [reflexivity|]. intros raw.
    unfold status. run_cmd. now rewrite status_loop_spec.
Qed.

Lemma operations_run_one_command_witness :
  snd (exec (fun _ => "") (cluster_join "riak@10.0.0.1"))
  = ["riak-admin cluster join riak@10.0.0.1"] /\
  snd (exec (fun _ => "") (cluster_replace "riak" "riak@10.0.0.2" false))
  = ["riak-admin cluster replace riak riak@10.0.0.2"].
Proof.
  destruct (operations_run_one_command (fun _ => ""))
    as (_ & Hjoin & Hreplace & _).
  split.
  - apply (Hjoin "riak@10.0.0.1"). reflexivity.
  - apply (Hreplace "riak" "riak@10.0.0.2" false). right. reflexivity.
Defined.

(** X12: [cluster_plan] answers [None] or the normalised lines, and that list is
    never empty, never starts with ["There are no staged changes"], holds
    no ["!!!!"] line and selects raw lines in their order. *)
Theorem cluster_plan_answers (raw : string) (v : PyVal) :
  resume cluster_plan raw = Ret v ->
  v = PyNone \/
  exists first rest,
    v = PyList (first :: rest) /\
    normalize raw = first :: rest /\
    first <> "There are no staged changes" /\
    (first :: rest) `sublist_of` split raw LF /\
    Forall (fun line => startswith line "!!!!" = false) (first :: rest).
Proof.
  unfold cluster_plan. run_cmd.
  destruct (normalize raw) as [|first rest] eqn:Hn; [discriminate|].
  rewrite getitem_head. cbn [bind].
  destruct (String.eqb_spec first "There are no staged changes") as [->|Hne];
    intros [= <-]; [now left|].
  right. exists first, rest.
  pose proof (normalize_sublist_raw raw) as Hsub.
  pose proof (normalize_line raw) as Hall.
  rewrite Hn in Hsub, Hall.
  repeat split; auto.
  apply List.Forall_forall. intros line Hin. now apply Hall.
Qed.

Lemma cluster_plan_answers_witness :
  PyList ["Action  Nodes(s)"] = PyNone \/
  exists first rest,
    PyList ["Action  Nodes(s)"] = PyList (first :: rest) /\
    normalize ("!!!!" +:+ LF +:+ "Action  Nodes(s)") = first :: rest /\
    first <> "There are no staged changes" /\
    (first :: rest) `sublist_of` split ("!!!!" +:+ LF +:+ "Action  Nodes(s)") LF /\
    Forall (fun line => startswith line "!!!!" = false) (first :: rest).
Proof.
  apply (cluster_plan_answers ("!!!!" +:+ LF +:+ "Action  Nodes(s)")).
  reflexivity.
Defined.

End CommandsRun.

(** ** Invariants of [member_status] and [status] *)

Section Invariants.

(** A property kept by every pass of a loop body holds when the loop
    returns. *)
Lemma for_each_invariant {A S : Type} (P : S -> Prop)
      (body : S -> A -> Prog S) (xs : list A) :
  (forall s x s', In x xs -> P s -> body s x = Ret s' -> P s') ->
  forall s s', P s -> for_each body xs s = Ret s' -> P s'.
Proof.
  induction xs as [|x xs IH]; intros Hbody s s' Hs H.
  - now injection H as <-.
  - cbn [for_each] in H.
    destruct (body s x) as [s1| |] eqn:Hb; try discriminate.
    cbn [bind] in H. apply (IH (fun s0 y s0' Hy => Hbody s0 y s0' (or_intror Hy))
                               s1 s'); [|exact H].
    apply (Hbody s x s1); [now left | exact Hs | exact Hb].
Qed.

Lemma bind_returns {A B : Type} (p : Prog A) (f : A -> Prog B) (b : B) :
  bind p f = Ret b -> exists a, p = Ret a /\ f a = Ret b.
Proof. destruct p; try discriminate. eauto. Qed.

Lemma summary_item_effect (ret ret' : MemberStatus) (item : string) :
  summary_item ret item = Ret ret' ->
  exists key val,
    membership ret' = membership ret /\
    summary ret' = <[strip key := PyString (strip val)]> (summary ret).
Proof.
  unfold summary_item.
  destruct (split item ":") as [|key [|val [|c l]]]; try discriminate.
  intros [= <-]. eauto.
Qed.

Lemma node_step_effect (ret ret' : MemberStatus) (line : string) :
  node_step ret line = Ret ret' ->
  summary ret' = summary ret /\
  (membership ret' = membership ret \/
   exists t0 t1 t2 t3,
     split_ws line = [t0; t1; t2; t3] /\
     membership ret' = <[t3 := node_row t0 t1 t2]> (membership ret)).
Proof.
  unfold node_step.
  destruct (split_ws line) as [|t0 [|t1 [|t2 [|t3 [|t4 l]]]]]; cbn;
    intros [= <-]; split; try reflexivity; try (now left).
  right. now exists t0, t1, t2, t3.
Qed.

(** Properties of the summary that an insertion of a text value keeps. *)
Lemma summary_step_keeps (P : gmap string PyVal -> Prop) :
  (forall m k s, P m -> P (<[k := PyString s]> m)) ->
  forall line ret ret',
    P (summary ret) -> summary_step ret line = Ret ret' -> P (summary ret').
Proof.
  intros Hins line ret ret' HP. unfold summary_step.
  destruct (contains "/" line); [|now intros [= <-]].
  apply (for_each_invariant (fun r => P (summary r))); [|exact HP].
  intros s x s' _ Hs Hitem.
  apply summary_item_effect in Hitem as (key & val & _ & ->). now apply Hins.
Qed.

Lemma member_line_keeps (P : gmap string PyVal -> Prop) :
  (forall m k s, P m -> P (<[k := PyString s]> m)) ->
  forall line ret ret',
    P (summary ret) -> member_line ret line = Ret ret' -> P (summary ret').
Proof.
  intros Hins line ret ret' HP. unfold member_line.
  destruct (skipped line); [now intros [= <-]|].
  intros H. apply bind_returns in H as (r & Hs & Hn).
  apply node_step_effect in Hn as [-> _].
  exact (summary_step_keeps P Hins line ret r HP Hs).
Qed.

Lemma member_status_keeps (P : gmap string PyVal -> Prop) :
  (forall m k s, P m -> P (<[k := PyString s]> m)) ->
  P (summary initial_ret) ->
  forall raw ret, resume member_status raw = Ret ret -> P (summary ret).
Proof.
  intros Hins H0 raw ret. unfold member_status. run_cmd.
  apply (for_each_invariant (fun r => P (summary r))); [|exact H0].
  intros s x s' _. apply member_line_keeps. exact Hins.
Qed.

(** X13: Whenever [member_status] returns, its summary still has the five keys
    [Valid], [Leaving], [Exiting], [Joining] and [Down], and every summary
    value is either the initial integer 0 or a text taken from the
    output: keys are only ever added or overwritten. *)
Theorem member_status_summary_keeps_five_keys (raw : string)
        (ret : MemberStatus) :
  resume member_status raw = Ret ret ->
  (forall key,
     In key ["Valid"; "Leaving"; "Exiting"; "Joining"; "Down"] ->
     is_Some (summary ret !! key)) /\
  (forall key v,
     summary ret !! key = Some v -> v = PyInt 0 \/ exists s, v = PyString s).
Proof.
  intros H. split.
  - intros key Hkey.
    apply (member_status_keeps (fun m => is_Some (m !! key))) with (raw := raw);
      [| |exact H].
    + intros m k s Hm. rewrite lookup_insert_is_Some.
      destruct (decide (k = key)); auto.
    + cbn in Hkey.
      repeat (destruct Hkey as [<-|Hkey]; [vm_compute; eauto|]).
      destruct Hkey.
  - apply (member_status_keeps
             (fun m => forall key v,
                m !! key = Some v -> v = PyInt 0 \/ exists s, v = PyString s))
      with (raw := raw); [| |exact H].
    + intros m k s Hm key v.
      destruct (decide (k = key)) as [->|Hne].
      * rewrite lookup_insert_eq. intros [= <-]. eauto.
      * rewrite lookup_insert_ne by exact Hne. apply Hm.
    + intros key v Hv. cbn [summary initial_ret] in Hv.
      repeat (apply lookup_insert_Some in Hv as [[_ <-]|[_ Hv]]; [now left|]).
      apply lookup_singleton_Some in Hv as [_ <-]. now left.
Qed.

Lemma member_status_summary_keeps_five_keys_witness :
  is_Some (summary
             {| membership := ∅;
                summary :=
                  <["Valid" := PyString "2"]>
                    (<["extra" := PyString "9"]> (summary initial_ret)) |}
           !! "Down").
Proof.
  apply (member_status_summary_keeps_five_keys "extra:9 / Valid:2").
  - vm_compute. reflexivity.
  - right. right. right. right. left. reflexivity.
Defined.

Lemma member_line_membership (ret ret' : MemberStatus) (line : string) :
  member_line ret line = Ret ret' ->
  membership ret' = membership ret \/
  (skipped line = false /\
   exists t0 t1 t2 t3,
     split_ws line = [t0; t1; t2; t3] /\
     membership ret' = <[t3 := node_row t0 t1 t2]> (membership ret)).
Proof.
  unfold member_line. destruct (skipped line); [intros [= <-]; now left|].
  intros H. apply bind_returns in H as (r & Hs & Hn).
  apply summary_step_membership in Hs.
  apply node_step_effect in Hn as [_ [Hm|(t0 & t1 & t2 & t3 & Ht & Hm)]].
  - left. congruence.
  - right. split; [reflexivity|]. exists t0, t1, t2, t3. split; congruence.
Qed.

(** X14: Every entry of the membership [member_status] returns comes from an
    output line that is not skipped and has exactly four whitespace-separated
    tokens: the node is the fourth token and the entry holds the first three
    under [Status], [Ring] and [Pending].  No node is invented and no entry
    has other keys. *)
Theorem member_status_membership_from_rows (raw : string)
        (ret : MemberStatus) (node : string) (row : gmap string string) :
  resume member_status raw = Ret ret ->
  membership ret !! node = Some row ->
  exists line t0 t1 t2,
    In line (splitlines raw) /\ skipped line = false /\
    split_ws line = [t0; t1; t2; node] /\
    row = {[ "Status" := t0; "Ring" := t1; "Pending" := t2 ]}.
Proof.
  unfold member_status. run_cmd. intros H. revert node row.
  apply (for_each_invariant
           (fun r => forall node row,
              membership r !! node = Some row ->
              exists line t0 t1 t2,
                In line (splitlines raw) /\ skipped line = false /\
                split_ws line = [t0; t1; t2; node] /\
                row = node_row t0 t1 t2)
           member_line (splitlines raw)) with (s := initial_ret);
    [| |exact H].
  - intros s line s' Hin Hs Hline node row Hrow.
    apply member_line_membership in Hline
      as [Hm|(Hskip & t0 & t1 & t2 & t3 & Ht & Hm)];
      rewrite Hm in Hrow; [now apply Hs|].
    destruct (decide (t3 = node)) as [->|Hne].
    + rewrite lookup_insert_eq in Hrow. injection Hrow as <-.
      exists line, t0, t1, t2. auto.
    + rewrite lookup_insert_ne in Hrow by exact Hne. now apply Hs.
  - intros node row Hrow. cbn in Hrow. now rewrite lookup_empty in Hrow.
Qed.

Lemma member_status_membership_from_rows_witness :
  exists line t0 t1 t2,
    In line (splitlines ("a b c n1" +:+ LF +:+ "d e f n1")) /\
    skipped line = false /\
    split_ws line = [t0; t1; t2; "n1"] /\
    ({[ "Status" := "d"; "Ring" := "e"; "Pending" := "f" ]}
       : gmap string string)
    = {[ "Status" := t0; "Ring" := t1; "Pending" := t2 ]}.
Proof.
  apply (member_status_membership_from_rows
           ("a b c n1" +:+ LF +:+ "d e f n1")
           {| membership := {[ "n1" := node_row "d" "e" "f" ]};
              summary := summary initial_ret |}).
  - vm_compute. reflexivity.
  - vm_compute. reflexivity.
Defined.

Lemma member_line_without_slash (ret : MemberStatus) (line : string) :
  skipped line = true \/ contains "/" line = false ->
  exists ret', member_line ret line = Ret ret' /\ summary ret' = summary ret.
Proof.
  intros H. unfold member_line.
  destruct (skipped line); [now exists ret|].
  destruct H as [H|H]; [discriminate|].
  unfold summary_step. rewrite H. cbn [bind].
  destruct (node_step_returns ret line) as [r Hr].
  exists r. split; [exact Hr|]. now apply node_step_effect in Hr as [-> _].
Qed.

(** X15: When no line other than the skipped ones holds a ["/"], [member_status]
    returns and its summary is left at the five integer zeros it started
    with (integers, not texts); on the empty output it returns the initial
    dictionary. *)
Theorem member_status_without_summary_line :
  (forall raw,
     (forall line, In line (splitlines raw) ->
                   skipped line = true \/ contains "/" line = false) ->
     exists ret,
       resume member_status raw = Ret ret /\
       summary ret =
       {[ "Valid" := PyInt 0; "Leaving" := PyInt 0; "Exiting" := PyInt 0;
          "Joining" := PyInt 0; "Down" := PyInt 0 ]}) /\
  resume member_status "" =
  Ret {| membership := ∅;
         summary :=
           {[ "Valid" := PyInt 0; "Leaving" := PyInt 0; "Exiting" := PyInt 0;
              "Joining" := PyInt 0; "Down" := PyInt 0 ]} |}.
Proof.
  split; [|reflexivity].
  intros raw. unfold member_status. run_cmd.
  change ({[ "Valid" := PyInt 0; "Leaving" := PyInt 0; "Exiting" := PyInt 0;
             "Joining" := PyInt 0; "Down" := PyInt 0 ]})
    with (summary initial_ret).
  generalize initial_ret. induction (splitlines raw) as [|line lines IH];
    intros ret H; [now exists ret|].
  destruct (member_line_without_slash ret line (H line (or_introl eq_refl)))
    as (r & Hr & Hsum).
  cbn [for_each]. rewrite Hr. cbn [bind].
  destruct (IH r (fun l Hl => H l (or_intror Hl))) as (r' & Hr' & Hsum').
  exists r'. split; [exact Hr' | congruence].
Qed.

Lemma member_status_without_summary_line_witness :
  exists ret,
    resume member_status ("valid 100.0% -- 'riak@127.0.0.1'") = Ret ret /\
    summary ret =
    {[ "Valid" := PyInt 0; "Leaving" := PyInt 0; "Exiting" := PyInt 0;
       "Joining" := PyInt 0; "Down" := PyInt 0 ]}.
Proof.
  destruct member_status_without_summary_line as [H _].
  apply (H "valid 100.0% -- 'riak@127.0.0.1'").
  intros line Hin. vm_compute in Hin.
  destruct Hin as [<-|[]]. right. reflexivity.
Defined.

Lemma status_row_spec_short (line : string) :
  (length (status_row_spec line) <= 1)%nat.
Proof.
  unfold status_row_spec.
  destruct (split line " : ") as [|a [|b [|c l]]]; cbn; lia.
Qed.

(** X16: [status] never raises and never answers more elements than there are
    raw lines; every element is a single-key mapping [{key: value}] for
    which the text [key : value] is, character for character, one of the
    raw lines. *)
Theorem status_rows_come_from_raw_lines (raw : string) :
  exists rows,
    resume status raw = Ret rows /\
    (length rows <= length (split raw LF))%nat /\
    (forall m,
       In m rows ->
       exists key value,
         m = {[ key := value ]} /\
         In (key +:+ " : " +:+ value) (split raw LF)).
Proof.
  eexists. split; [|split].
  - unfold status. run_cmd. rewrite status_loop_spec. reflexivity.
  - cbn [app]. induction (split raw LF) as [|line lines IH]; [cbn; lia|].
    cbn [flat_map]. rewrite length_app. cbn [length].
    pose proof (status_row_spec_short line). lia.
  - cbn [app]. intros m Hm. apply in_flat_map in Hm as (line & Hin & Hm).
    unfold status_row_spec in Hm.
    pose proof (join_split line " : " ltac:(discriminate)) as Hj.
    destruct (split line " : ") as [|key [|value [|c l]]];
      try (now destruct Hm).
    destruct Hm as [<-|[]]. exists key, value. split; [reflexivity|].
    cbn [join] in Hj. now rewrite Hj.
Qed.

Lemma status_rows_come_from_raw_lines_witness :
  exists key value,
    ({[ "ring_num_partitions" := "64" ]} : gmap string string)
    = {[ key := value ]} /\
    In (key +:+ " : " +:+ value)
       (split ("ring_num_partitions : 64" +:+ LF +:+ "no separator") LF).
Proof.
  destruct (status_rows_come_from_raw_lines
              ("ring_num_partitions : 64" +:+ LF +:+ "no separator"))
    as (rows & Hrows & _ & Hfrom).
  apply Hfrom. vm_compute in Hrows. injection Hrows as <-.
  left. vm_compute. reflexivity.
Defined.

End Invariants.
